(** * PocketFlow: the in-memory ledger store and the analytics summary

    A shallow embedding of the class [MemStorage] (the [storage] module of
    the server) and of the debt totals computed by the
    [/api/analytics/summary] route (server/routes.ts), followed by the
    properties of the ledger that hold of them.

    Conventions of the embedding.
    - A JavaScript [Map] is an insertion-ordered association list
      ([JsMap]): iteration order is observable through [getAccounts] and
      through the stable [Array.prototype.sort].
    - A [Date] is its time value ([getTime()], milliseconds since the
      epoch) as a [Z]; only valid dates are represented.
    - A money string with two fractional digits, such as "2450.00", is
      represented by its number of hundredths; the strings [toFixed]
      prints for other numbers are kept as the number they denote.
    - [parseFloat], [+], [-] and [toFixed(2)] are modelled on IEEE 754
      binary64 values ([Float]).
    - The results of [randomUUID()] and [new Date()] are arguments of the
      operations that call them.
    - Every method of the store is [async]: it is a computation on the
      store that settles a promise, either resolved with a value or
      rejected with an error.
    - The entities have the types of shared/schema.ts, and an update
      payload is a [Partial] of its entity, as the methods declare it.
      The [PATCH] routes pass the request body on unchecked; a store in
      which such a body has replaced a property by a value of another
      type (a [createdAt] read from JSON is a string, on which
      [getTime()] throws) is not represented: what is stated of
      [getDebts] and [getReminders] holds of stores whose debts and
      reminders carry dates.
    - A callback that reads [new Date()] each time it runs takes its
      readings from a function of the number of the reading.
    - The calendar methods [getMonth] and [getFullYear], which depend on
      the time zone of the server, and the call of the language model are
      parameters; a route handler is a computation on the store that
      gives the status and the body of the response. *)

From Stdlib Require Import ZArith List String Bool Lia Sorted Permutation.
From Stdlib Require Import SpecFloat.
Import ListNotations.

Local Open Scope string_scope.
Local Open Scope list_scope.
Local Open Scope Z_scope.

(** ** JavaScript [Map] with string keys *)

Module JsMap.

Definition t (V : Type) : Type := list (string * V).

Definition empty {V} : t V := [].

(** [Map.prototype.get]: [undefined] is [None]. *)
Fixpoint get {V} (k : string) (m : t V) : option V :=
  match m with
  | [] => None
  | (k', v) :: r => if String.eqb k k' then Some v else get k r
  end.

(** [Map.prototype.set]: an existing key keeps its position, a new key
    is appended. *)
Fixpoint set {V} (k : string) (v : V) (m : t V) : t V :=
  match m with
  | [] => [(k, v)]
  | (k', v') :: r =>
      if String.eqb k k' then (k, v) :: r else (k', v') :: set k v r
  end.

(** [Map.prototype.delete]. *)
Fixpoint delete {V} (k : string) (m : t V) : t V :=
  match m with
  | [] => []
  | (k', v') :: r =>
      if String.eqb k k' then delete k r else (k', v') :: delete k r
  end.

(** [Map.prototype.clear]. *)
Definition clear {V} (m : t V) : t V := [].

(** [Array.from(m.values())]. *)
Definition values {V} (m : t V) : list V := map snd m.

Definition keys {V} (m : t V) : list string := map fst m.

End JsMap.

(** ** [Array.prototype.sort] with a comparator

    The sort is stable (ECMAScript 2019).  [insert_by] puts an element in
    front of the first one it does not compare greater than, so elements
    that compare equal keep their order.  Only the sign of the comparator
    matters; the comparators of the store subtract two time values, which
    is done here in [Z]. *)

Section Sort.
Context {A : Type} (cmp : A -> A -> Z).

Fixpoint insert_by (x : A) (l : list A) : list A :=
  match l with
  | [] => [x]
  | y :: r => if cmp x y <=? 0 then x :: y :: r else y :: insert_by x r
  end.

Fixpoint sort_by (l : list A) : list A :=
  match l with
  | [] => []
  | x :: r => insert_by x (sort_by r)
  end.

(** [a] may stand before [b]. *)
Definition before (a b : A) : Prop := cmp a b <= 0.
End Sort.

(** The comparators of the store: [(a, b) => key(a) - key(b)] and
    [(a, b) => key(b) - key(a)]. *)
Definition ascending {A} (key : A -> Z) (a b : A) : Z := key a - key b.
Definition descending {A} (key : A -> Z) (a b : A) : Z := key b - key a.

(** ** IEEE 754 binary64 numbers

    A finite double is an integer multiple of 2^-1074 (the smallest
    subnormal); [Fin u] is the double of value [u * 2^-1074].  The doubles
    are the [Fin u] with [|u| < 2^53] (subnormals and the first binade) or
    [|u| = m * 2^s] with [2^52 <= m < 2^53] and [|u| < 2^2098].  The sign
    of zero is not represented: [toFixed] prints both zeros as "0.00" and
    a sum differs for them in the sign of a zero result only. *)

Module Float.

Inductive double : Type :=
| Fin (u : Z)
| Inf (negative : bool)
| NaN.

(** The number 1 in multiples of 2^-1074. *)
Definition one : Z := 2 ^ 1074.

(** Smallest magnitude that overflows, 2^1024, in multiples of
    2^-1074. *)
Definition overflow : Z := 2 ^ 1024 * one.

(** Nearest integer to [a / d], ties to the even one ([0 <= a], [0 < d]). *)
Definition half_even (a d : Z) : Z :=
  let q := a / d in
  let r := a mod d in
  if 2 * r <? d then q
  else if d <? 2 * r then q + 1
  else if Z.even q then q else q + 1.

(** The rational [a / den] ([0 <= a], [0 < den]), counted in multiples of
    2^-1074, rounded to nearest, ties to even: the quotient keeps 53
    significant bits, or all its integer bits when it is below 2^53. *)
Definition magnitude (a den : Z) : Z :=
  let s := Z.max 0 (Z.log2 (a / den) - 52) in
  half_even a (den * 2 ^ s) * 2 ^ s.

(** The double nearest to [num / den]; a magnitude of 2^1024 or more
    overflows to an infinity. *)
Definition rne (num den : Z) : double :=
  let r := magnitude (Z.abs num) den in
  if overflow <=? r then Inf (num <? 0) else Fin (Z.sgn num * r).

(** [x + y] on Numbers. *)
Definition add (x y : double) : double :=
  match x, y with
  | NaN, _ | _, NaN => NaN
  | Inf a, Inf b => if Bool.eqb a b then Inf a else NaN
  | Inf a, Fin _ | Fin _, Inf a => Inf a
  | Fin a, Fin b => rne (a + b) 1
  end.

Definition neg (x : double) : double :=
  match x with
  | Fin u => Fin (- u)
  | Inf a => Inf (negb a)
  | NaN => NaN
  end.

(** [x - y] on Numbers. *)
Definition sub (x y : double) : double := add x (neg y).

Definition zero : double := Fin 0.

End Float.

(** Reading a double of the standard library's specification of IEEE 754
    arithmetic ([SpecFloat], with 53 bits of precision and exponents below
    1024) in this representation; the examples of [FloatFacts] compare the
    two on sample operands. *)
Definition of_spec (x : spec_float) : Float.double :=
  match x with
  | S754_zero _ => Float.Fin 0
  | S754_infinity s => Float.Inf s
  | S754_nan => Float.NaN
  | S754_finite s m e =>
      Float.Fin ((if s then -1 else 1) * Z.pos m * 2 ^ (e + 1074))
  end.

(** The integer [n], and [c / 100] by a correctly rounded division, in
    [SpecFloat]. *)
Definition spec_integer (n : Z) : spec_float :=
  binary_normalize 53 1024 n 0 false.

Definition spec_cents (c : Z) : spec_float :=
  SFdiv 53 1024 (spec_integer c) (spec_integer 100).

(** ** Money strings

    [Fixed2 c] is the decimal string with two fractional digits whose value
    is [c / 100] ("2450.00" is [Fixed2 245000]; [Fixed2 0] stands for
    "0.00" and for the "-0.00" that [toFixed] prints for a small negative
    number, which [parseFloat] reads as a zero).  [NumStr x] is the string
    [Number.prototype.toString] prints for the double [x]; [toFixed]
    returns it for a number that is not finite or is at least 10^21 in
    magnitude. *)

Inductive money : Type :=
| Fixed2 (cents : Z)
| NumStr (x : Float.double).

(** [parseFloat]: the double nearest to the decimal value (for literals
    of at most 20 significant digits the language leaves no choice); a
    string printed from a double reads back as that double. *)
Definition parseFloat (s : money) : Float.double :=
  match s with
  | Fixed2 c => Float.rne (c * Float.one) 100
  | NumStr x => x
  end.

(** [x.toFixed(2)]: for [|x| < 10^21] the integer [n] with [n / 100]
    nearest to [|x|], the larger one of two, with the sign of [x]. *)
Definition toFixed2 (x : Float.double) : money :=
  match x with
  | Float.Fin u =>
      let a := Z.abs u in
      if 10 ^ 21 * Float.one <=? a then NumStr x
      else Fixed2 (Z.sgn u * ((200 * a + Float.one) / (2 * Float.one)))
  | _ => NumStr x
  end.

(** ** The entities of shared/schema.ts *)

Definition Date : Type := Z.

Inductive AccountType : Type := main | savings | other.
Inductive TransactionType : Type := expense | income.
Inductive Category : Type := food | transport | entertainment | study | mess | otherCategory.
Inductive DebtType : Type := owe | owed.
Inductive ReminderStatus : Type := pending | paid | snoozed.

Definition TransactionType_eqb (a b : TransactionType) : bool :=
  match a, b with
  | expense, expense | income, income => true
  | _, _ => false
  end.

Definition DebtType_eqb (a b : DebtType) : bool :=
  match a, b with
  | owe, owe | owed, owed => true
  | _, _ => false
  end.

Module Account.
Record t : Type := mk {
  id : string;
  name : string;
  type : AccountType;
  balance : money;
  createdAt : Date
}.
End Account.

(** The insert payloads are taken with every property of their schema
    present; the store copies them and applies no default. *)
Module InsertAccount.
Record t : Type := mk {
  name : string;
  type : AccountType;
  balance : money
}.
End InsertAccount.

Module Transaction.
Record t : Type := mk {
  id : string;
  accountId : string;
  type : TransactionType;
  amount : money;
  description : string;
  category : Category;
  createdAt : Date
}.
End Transaction.

Module InsertTransaction.
Record t : Type := mk {
  accountId : string;
  type : TransactionType;
  amount : money;
  description : string;
  category : Category
}.
End InsertTransaction.

Module Debt.
Record t : Type := mk {
  id : string;
  friendName : string;
  type : DebtType;
  amount : money;
  description : string;
  settled : bool;
  createdAt : Date
}.
End Debt.

(** [InsertDebt] omits [settled] from its type; the object spread in
    [createDebt] copies whatever the run-time object carries, so a
    [settled] property that came along is kept here as [extraSettled]. *)
Module InsertDebt.
Record t : Type := mk {
  friendName : string;
  type : DebtType;
  amount : money;
  description : string;
  extraSettled : option bool
}.
End InsertDebt.

(** [Partial<Debt>]: every property is optional. *)
Module PartialDebt.
Record t : Type := mk {
  id : option string;
  friendName : option string;
  type : option DebtType;
  amount : option money;
  description : option string;
  settled : option bool;
  createdAt : option Date
}.
End PartialDebt.

Module Reminder.
Record t : Type := mk {
  id : string;
  title : string;
  description : option string;
  amount : money;
  dueDate : Date;
  status : ReminderStatus;
  recurring : bool;
  createdAt : Date
}.
End Reminder.

Module InsertReminder.
Record t : Type := mk {
  title : string;
  description : option string;
  amount : money;
  dueDate : Date;
  status : ReminderStatus;
  recurring : bool
}.
End InsertReminder.

(** [Partial<Reminder>]. *)
Module PartialReminder.
Record t : Type := mk {
  id : option string;
  title : option string;
  description : option (option string);
  amount : option money;
  dueDate : option Date;
  status : option ReminderStatus;
  recurring : option bool;
  createdAt : option Date
}.
End PartialReminder.

Module ChatMessage.
Record t : Type := mk {
  id : string;
  content : string;
  isUser : bool;
  createdAt : Date
}.
End ChatMessage.

Module InsertChatMessage.
Record t : Type := mk {
  content : string;
  isUser : bool
}.
End InsertChatMessage.

(** ** Promises and the store monad *)

Definition error : Type := string.

(** The error kind the ledger specification names for a dangling
    reference; no method of [MemStorage] constructs it. *)
Definition NotFoundError : error := "NotFoundError".

Inductive Promise (A : Type) : Type :=
| Resolved (a : A)
| Rejected (e : error).
Arguments Resolved {A} a.
Arguments Rejected {A} e.

(** The five private maps of [MemStorage]. *)
Record MemStorage : Type := mkMemStorage {
  accounts : JsMap.t Account.t;
  transactions : JsMap.t Transaction.t;
  debts : JsMap.t Debt.t;
  reminders : JsMap.t Reminder.t;
  chatMessages : JsMap.t ChatMessage.t
}.

(** An [async] method: it runs on the store and settles its promise; a
    rejection keeps the mutations made before it. *)
Definition Async (A : Type) : Type := MemStorage -> Promise A * MemStorage.

Definition ret {A} (a : A) : Async A := fun this => (Resolved a, this).

(** [await]. *)
Definition bind {A B} (m : Async A) (k : A -> Async B) : Async B :=
  fun this =>
    match m this with
    | (Resolved a, this') => k a this'
    | (Rejected e, this') => (Rejected e, this')
    end.

Notation "x <- m ;; k" := (bind m (fun x => k))
  (at level 61, m at next level, right associativity).
Notation "m ;;; k" := (bind m (fun _ => k))
  (at level 61, right associativity).

Definition read {A} (f : MemStorage -> A) : Async A :=
  fun this => (Resolved (f this), this).

Definition write (f : MemStorage -> MemStorage) : Async unit :=
  fun this => (Resolved tt, f this).

Definition with_accounts (f : JsMap.t Account.t -> JsMap.t Account.t)
  (this : MemStorage) : MemStorage :=
  mkMemStorage (f (accounts this)) (transactions this) (debts this)
    (reminders this) (chatMessages this).

Definition with_transactions
  (f : JsMap.t Transaction.t -> JsMap.t Transaction.t)
  (this : MemStorage) : MemStorage :=
  mkMemStorage (accounts this) (f (transactions this)) (debts this)
    (reminders this) (chatMessages this).

Definition with_debts (f : JsMap.t Debt.t -> JsMap.t Debt.t)
  (this : MemStorage) : MemStorage :=
  mkMemStorage (accounts this) (transactions this) (f (debts this))
    (reminders this) (chatMessages this).

Definition with_reminders (f : JsMap.t Reminder.t -> JsMap.t Reminder.t)
  (this : MemStorage) : MemStorage :=
  mkMemStorage (accounts this) (transactions this) (debts this)
    (f (reminders this)) (chatMessages this).

Definition with_chatMessages
  (f : JsMap.t ChatMessage.t -> JsMap.t ChatMessage.t)
  (this : MemStorage) : MemStorage :=
  mkMemStorage (accounts this) (transactions this) (debts this)
    (reminders this) (f (chatMessages this)).

(** The field initializers of the class: five empty maps. *)
Definition emptyStorage : MemStorage :=
  mkMemStorage JsMap.empty JsMap.empty JsMap.empty JsMap.empty JsMap.empty.

(** ** [MemStorage] *)

(** [initializeDefaults]; [id1], [id2] are the two [randomUUID()] results
    and [now1], [now2] the two [new Date()] results.  The body has no
    [await], so the constructor's call runs it to completion. *)
Definition initializeDefaults (id1 id2 : string) (now1 now2 : Date)
  : Async unit :=
  let mainAccount :=
    Account.mk id1 "Main Account" main (Fixed2 245000) now1 in
  let savingsAccount :=
    Account.mk id2 "Savings Account" savings (Fixed2 875000) now2 in
  write (with_accounts (JsMap.set (Account.id mainAccount) mainAccount)) ;;;
  write (with_accounts (JsMap.set (Account.id savingsAccount) savingsAccount)).

(** [new MemStorage()]. *)
Definition newMemStorage (id1 id2 : string) (now1 now2 : Date) : MemStorage :=
  snd (initializeDefaults id1 id2 now1 now2 emptyStorage).

(** *** Accounts *)

Definition getAccounts : Async (list Account.t) :=
  read (fun this => JsMap.values (accounts this)).

Definition getAccount (id : string) : Async (option Account.t) :=
  read (fun this => JsMap.get id (accounts this)).

Definition createAccount (id : string) (now : Date)
  (insertAccount : InsertAccount.t) : Async Account.t :=
  let account :=
    Account.mk id (InsertAccount.name insertAccount)
      (InsertAccount.type insertAccount)
      (InsertAccount.balance insertAccount) now in
  write (with_accounts (JsMap.set id account)) ;;;
  ret account.

Definition set_balance (balance : money) (a : Account.t) : Account.t :=
  Account.mk (Account.id a) (Account.name a) (Account.type a) balance
    (Account.createdAt a).

Definition updateAccountBalance (id : string) (balance : money) : Async unit :=
  account <- read (fun this => JsMap.get id (accounts this)) ;;
  match account with
  | Some account =>
      write (with_accounts (JsMap.set id (set_balance balance account)))
  | None => ret tt
  end.

(** *** Transactions *)

(** A JavaScript string is truthy unless it is empty. *)
Definition truthy (s : option string) : option string :=
  match s with
  | Some "" => None
  | _ => s
  end.

Definition filter_opt {A B} (arg : option B) (p : B -> A -> bool)
  (l : list A) : list A :=
  match arg with
  | Some b => filter (p b) l
  | None => l
  end.

(** The enum label of a category, as stored in [t.category]. *)
Definition Category_name (c : Category) : string :=
  match c with
  | food => "food"
  | transport => "transport"
  | entertainment => "entertainment"
  | study => "study"
  | mess => "mess"
  | otherCategory => "other"
  end.

(** [getTransactions]: [accountId] and [category] are optional strings,
    tested for truthiness; a [Date] object is always truthy. *)
Definition getTransactions (accountId category : option string)
  (startDate endDate : option Date)
  : Async (list Transaction.t) :=
  transactions0 <- read (fun this => JsMap.values (transactions this)) ;;
  let transactions1 :=
    filter_opt (truthy accountId)
      (fun accountId t => String.eqb (Transaction.accountId t) accountId)
      transactions0 in
  let transactions2 :=
    filter_opt (truthy category)
      (fun category t =>
         String.eqb (Category_name (Transaction.category t)) category)
      transactions1 in
  let transactions3 :=
    filter_opt startDate
      (fun startDate t => startDate <=? Transaction.createdAt t)
      transactions2 in
  let transactions4 :=
    filter_opt endDate
      (fun endDate t => Transaction.createdAt t <=? endDate)
      transactions3 in
  ret (sort_by
         (fun a b => Transaction.createdAt b - Transaction.createdAt a)
         transactions4).

Definition getTransaction (id : string) : Async (option Transaction.t) :=
  read (fun this => JsMap.get id (transactions this)).

Definition createTransaction (id : string) (now : Date)
  (insertTransaction : InsertTransaction.t) : Async Transaction.t :=
  let transaction :=
    Transaction.mk id
      (InsertTransaction.accountId insertTransaction)
      (InsertTransaction.type insertTransaction)
      (InsertTransaction.amount insertTransaction)
      (InsertTransaction.description insertTransaction)
      (InsertTransaction.category insertTransaction)
      now in
  write (with_transactions (JsMap.set id transaction)) ;;;
  account <- read (fun this =>
    JsMap.get (InsertTransaction.accountId insertTransaction) (accounts this)) ;;
  match account with
  | Some account =>
      let currentBalance := parseFloat (Account.balance account) in
      let transactionAmount :=
        parseFloat (InsertTransaction.amount insertTransaction) in
      let newBalance :=
        if TransactionType_eqb (InsertTransaction.type insertTransaction) expense
        then Float.sub currentBalance transactionAmount
        else Float.add currentBalance transactionAmount in
      updateAccountBalance (InsertTransaction.accountId insertTransaction)
        (toFixed2 newBalance)
  | None => ret tt
  end ;;;
  ret transaction.

Definition deleteTransaction (id : string) : Async unit :=
  write (with_transactions (JsMap.delete id)).

(** *** Debts *)

(** [getDebts]: the comparator calls [getTime()] on the [createdAt] of the
    two debts it compares; every debt of this model has a date there. *)
Definition getDebts : Async (list Debt.t) :=
  debts0 <- read (fun this => JsMap.values (debts this)) ;;
  ret (sort_by (fun a b => Debt.createdAt b - Debt.createdAt a) debts0).

Definition getDebt (id : string) : Async (option Debt.t) :=
  read (fun this => JsMap.get id (debts this)).

(** In an object literal a property written after a spread replaces the
    one the spread copied, if there was one. *)
Definition overwrite {A} (copied : option A) (written : A) : A :=
  match copied with
  | Some _ => written
  | None => written
  end.

(** [{ ...insertDebt, id, settled: false, createdAt: new Date() }]. *)
Definition createDebt (id : string) (now : Date) (insertDebt : InsertDebt.t)
  : Async Debt.t :=
  let debt :=
    Debt.mk id (InsertDebt.friendName insertDebt) (InsertDebt.type insertDebt)
      (InsertDebt.amount insertDebt) (InsertDebt.description insertDebt)
      (overwrite (InsertDebt.extraSettled insertDebt) false) now in
  write (with_debts (JsMap.set id debt)) ;;;
  ret debt.

Definition or_else {A} (o : option A) (d : A) : A :=
  match o with
  | Some a => a
  | None => d
  end.

(** [Object.assign(debt, updates)]: each property present in [updates] is
    written, the others are left as they are. *)
Definition assign_debt (debt : Debt.t) (updates : PartialDebt.t) : Debt.t :=
  Debt.mk
    (or_else (PartialDebt.id updates) (Debt.id debt))
    (or_else (PartialDebt.friendName updates) (Debt.friendName debt))
    (or_else (PartialDebt.type updates) (Debt.type debt))
    (or_else (PartialDebt.amount updates) (Debt.amount debt))
    (or_else (PartialDebt.description updates) (Debt.description debt))
    (or_else (PartialDebt.settled updates) (Debt.settled debt))
    (or_else (PartialDebt.createdAt updates) (Debt.createdAt debt)).

Definition updateDebt (id : string) (updates : PartialDebt.t) : Async unit :=
  debt <- read (fun this => JsMap.get id (debts this)) ;;
  match debt with
  | Some debt => write (with_debts (JsMap.set id (assign_debt debt updates)))
  | None => ret tt
  end.

Definition deleteDebt (id : string) : Async unit :=
  write (with_debts (JsMap.delete id)).

(** *** Reminders *)

(** [getReminders]: likewise on [dueDate]. *)
Definition getReminders : Async (list Reminder.t) :=
  reminders0 <- read (fun this => JsMap.values (reminders this)) ;;
  ret (sort_by (fun a b => Reminder.dueDate a - Reminder.dueDate b) reminders0).

Definition getReminder (id : string) : Async (option Reminder.t) :=
  read (fun this => JsMap.get id (reminders this)).

Definition createReminder (id : string) (now : Date)
  (insertReminder : InsertReminder.t) : Async Reminder.t :=
  let reminder :=
    Reminder.mk id (InsertReminder.title insertReminder)
      (InsertReminder.description insertReminder)
      (InsertReminder.amount insertReminder)
      (InsertReminder.dueDate insertReminder)
      (InsertReminder.status insertReminder)
      (InsertReminder.recurring insertReminder) now in
  write (with_reminders (JsMap.set id reminder)) ;;;
  ret reminder.

(** [Object.assign(reminder, updates)]. *)
Definition assign_reminder (reminder : Reminder.t)
  (updates : PartialReminder.t) : Reminder.t :=
  Reminder.mk
    (or_else (PartialReminder.id updates) (Reminder.id reminder))
    (or_else (PartialReminder.title updates) (Reminder.title reminder))
    (or_else (PartialReminder.description updates)
       (Reminder.description reminder))
    (or_else (PartialReminder.amount updates) (Reminder.amount reminder))
    (or_else (PartialReminder.dueDate updates) (Reminder.dueDate reminder))
    (or_else (PartialReminder.status updates) (Reminder.status reminder))
    (or_else (PartialReminder.recurring updates) (Reminder.recurring reminder))
    (or_else (PartialReminder.createdAt updates) (Reminder.createdAt reminder)).

Definition updateReminder (id : string) (updates : PartialReminder.t)
  : Async unit :=
  reminder <- read (fun this => JsMap.get id (reminders this)) ;;
  match reminder with
  | Some reminder =>
      write (with_reminders (JsMap.set id (assign_reminder reminder updates)))
  | None => ret tt
  end.

Definition deleteReminder (id : string) : Async unit :=
  write (with_reminders (JsMap.delete id)).

(** *** Chat messages *)

Definition getChatMessages : Async (list ChatMessage.t) :=
  messages <- read (fun this => JsMap.values (chatMessages this)) ;;
  ret (sort_by (fun a b => ChatMessage.createdAt a - ChatMessage.createdAt b)
         messages).

Definition createChatMessage (id : string) (now : Date)
  (insertMessage : InsertChatMessage.t) : Async ChatMessage.t :=
  let message :=
    ChatMessage.mk id (InsertChatMessage.content insertMessage)
      (InsertChatMessage.isUser insertMessage) now in
  write (with_chatMessages (JsMap.set id message)) ;;;
  ret message.

Definition clearChatMessages : Async unit :=
  write (with_chatMessages JsMap.clear).

(** ** The debt totals of [/api/analytics/summary] (server/routes.ts) *)

(** [l.reduce((sum, d) => sum + parseFloat(d.amount), 0)]. *)
Definition sum_amounts (l : list Debt.t) : Float.double :=
  fold_left (fun sum d => Float.add sum (parseFloat (Debt.amount d))) l
    Float.zero.

Definition totalOwed (debts : list Debt.t) : Float.double :=
  sum_amounts
    (filter (fun d => DebtType_eqb (Debt.type d) owe && negb (Debt.settled d))
       debts).

Definition totalOwedToUser (debts : list Debt.t) : Float.double :=
  sum_amounts
    (filter (fun d => DebtType_eqb (Debt.type d) owed && negb (Debt.settled d))
       debts).

(** The two totals as the route computes them from [storage.getDebts()]. *)
Definition netDebt : Async (Float.double * Float.double) :=
  debts <- getDebts ;;
  ret (totalOwed debts, totalOwedToUser debts).

(** ** The rest of [/api/analytics/summary] (server/routes.ts) *)

Definition ReminderStatus_eqb (a b : ReminderStatus) : bool :=
  match a, b with
  | pending, pending | paid, paid | snoozed, snoozed => true
  | _, _ => false
  end.

(** [accounts.reduce((sum, acc) => sum + parseFloat(acc.balance), 0)]. *)
Definition totalBalance (accounts : list Account.t) : Float.double :=
  fold_left (fun sum acc => Float.add sum (parseFloat (Account.balance acc)))
    accounts Float.zero.

(** [l.slice(0, n)]. *)
Definition slice0 {A} (n : nat) (l : list A) : list A := firstn n l.

(** [transactions.slice(0, 10)]. *)
Definition recentTransactions (transactions : list Transaction.t)
  : list Transaction.t :=
  slice0 10 transactions.

(** [debts.filter(d => !d.settled).slice(0, 5)]. *)
Definition activeDebts (debts : list Debt.t) : list Debt.t :=
  slice0 5 (filter (fun d => negb (Debt.settled d)) debts).

(** [reminders.filter(r => r.status === 'pending' && r.dueDate > new Date())]:
    the callback reads the clock anew for each pending reminder; [clock k]
    is the reading number [k]. *)
Fixpoint pendingAfter (clock : nat -> Date) (k : nat)
  (reminders : list Reminder.t) : list Reminder.t :=
  match reminders with
  | [] => []
  | r :: rest =>
      if ReminderStatus_eqb (Reminder.status r) pending
      then if clock k <? Reminder.dueDate r
           then r :: pendingAfter clock (S k) rest
           else pendingAfter clock (S k) rest
      else pendingAfter clock k rest
  end.

Definition upcomingReminders (clock : nat -> Date)
  (reminders : list Reminder.t) : list Reminder.t :=
  slice0 5 (pendingAfter clock 0 reminders).

(** [x || 0] on a Number: zero and [NaN] are falsy. *)
Definition or_zero (x : option Float.double) : Float.double :=
  match x with
  | Some (Float.Fin 0) | Some Float.NaN | None => Float.zero
  | Some y => y
  end.

Definition isExpense (t : Transaction.t) : bool :=
  TransactionType_eqb (Transaction.type t) expense.

(** [l.filter(t => t.type === 'expense')
      .reduce((sum, t) => sum + parseFloat(t.amount), 0)]. *)
Definition monthlySpent (monthlyTransactions : list Transaction.t)
  : Float.double :=
  fold_left (fun sum t => Float.add sum (parseFloat (Transaction.amount t)))
    (filter isExpense monthlyTransactions) Float.zero.

(** The reduction into an object keyed by category; an object with string
    keys keeps them in insertion order, as a [Map] does. *)
Definition categorySpending (monthlyTransactions : list Transaction.t)
  : JsMap.t Float.double :=
  fold_left
    (fun acc t =>
       JsMap.set (Category_name (Transaction.category t))
         (Float.add
            (or_zero (JsMap.get (Category_name (Transaction.category t)) acc))
            (parseFloat (Transaction.amount t)))
         acc)
    (filter isExpense monthlyTransactions) JsMap.empty.

Module Summary.
Record t : Type := mk {
  totalBalance : Float.double;
  monthlySpent : Float.double;
  categorySpending : JsMap.t Float.double;
  totalOwed : Float.double;
  totalOwedToUser : Float.double;
  recentTransactions : list Transaction.t;
  upcomingReminders : list Reminder.t;
  activeDebts : list Debt.t
}.
End Summary.

(** [getMonth] and [getFullYear] read a date in the local time zone of the
    server; they are parameters of what follows. *)
Section Calendar.
Variables getMonth getFullYear : Date -> Z.

(** The month filter of the summary route: [thisMonth] and [thisYear] are
    read before the filter runs. *)
Definition monthlyTransactions (thisMonth thisYear : Z)
  (transactions : list Transaction.t) : list Transaction.t :=
  filter
    (fun t =>
       (getMonth (Transaction.createdAt t) =? thisMonth)
       && (getFullYear (Transaction.createdAt t) =? thisYear))
    transactions.

(** The body of the [try] block of the route; [now1] and [now2] are the two
    [new Date()] read for the month and for the year, and [clock] gives
    the readings of the reminder filter. *)
Definition summary (now1 now2 : Date) (clock : nat -> Date)
  : Async Summary.t :=
  accounts <- getAccounts ;;
  transactions <- getTransactions None None None None ;;
  debts <- getDebts ;;
  reminders <- getReminders ;;
  let thisMonth := getMonth now1 in
  let thisYear := getFullYear now2 in
  let monthly := monthlyTransactions thisMonth thisYear transactions in
  ret (Summary.mk (totalBalance accounts) (monthlySpent monthly)
         (categorySpending monthly) (totalOwed debts) (totalOwedToUser debts)
         (recentTransactions transactions) (upcomingReminders clock reminders)
         (activeDebts debts)).

(** *** [generateAIResponse] (server/services/gemini.ts) *)

(** Its month filter reads the clock inside the callback, once for each
    transaction. *)
Fixpoint thisMonthTransactions (clock : nat -> Date) (k : nat)
  (transactions : list Transaction.t) : list Transaction.t :=
  match transactions with
  | [] => []
  | t :: rest =>
      if (getMonth (Transaction.createdAt t) =? getMonth (clock k))
         && (getFullYear (Transaction.createdAt t) =? getFullYear (clock k))
      then t :: thisMonthTransactions clock (S k) rest
      else thisMonthTransactions clock (S k) rest
  end.

End Calendar.

(** What the prompt template interpolates: the five aggregates, each
    printed with [toFixed(2)], and the user's message. *)
Module Prompt.
Record t : Type := mk {
  totalBalance : money;
  monthlySpent : money;
  categorySpending : list (string * money);
  totalOwed : money;
  totalOwedToUser : money;
  userMessage : string
}.
End Prompt.

(** What [ai.models.generateContent] does with a prompt: it throws, or it
    returns a response whose [text] is a string or [undefined]. *)
Inductive Generated : Type :=
| Throws (e : error)
| Response (text : option string).

(** [throw], and [try { m } catch (error) { h(error) }]. *)
Definition reject {A} (e : error) : Async A := fun this => (Rejected e, this).

Definition catch {A} (m : Async A) (h : error -> Async A) : Async A :=
  fun this =>
    match m this with
    | (Resolved a, this') => (Resolved a, this')
    | (Rejected e, this') => h e this'
    end.

Definition apology : string :=
  "I'm sorry, I couldn't process that request. Please try again.".

Definition difficulties : string :=
  "I'm experiencing technical difficulties right now. Please try again in a moment.".

Section Assistant.
Variables getMonth getFullYear : Date -> Z.
Variable generateContent : Prompt.t -> Generated.

(** The prompt built from the four listings. *)
Definition assistantPrompt (clock : nat -> Date) (userMessage : string)
  (accounts : list Account.t) (transactions : list Transaction.t)
  (debts : list Debt.t) : Prompt.t :=
  let thisMonth :=
    thisMonthTransactions getMonth getFullYear clock 0 transactions in
  Prompt.mk (toFixed2 (totalBalance accounts))
    (toFixed2 (monthlySpent thisMonth))
    (map (fun entry => (fst entry, toFixed2 (snd entry)))
       (categorySpending thisMonth))
    (toFixed2 (totalOwed debts)) (toFixed2 (totalOwedToUser debts))
    userMessage.

(** [generateAIResponse]: the [catch] turns a throw of the model call
    into a fixed reply, and [response.text || ...] an absent or empty text
    into another. *)
Definition generateAIResponse (clock : nat -> Date) (userMessage : string)
  : Async string :=
  catch
    (accounts <- getAccounts ;;
     transactions <- getTransactions None None None None ;;
     debts <- getDebts ;;
     reminders <- getReminders ;;
     let prompt :=
       assistantPrompt clock userMessage accounts transactions debts in
     match generateContent prompt with
     | Throws e => reject e
     | Response (Some text) =>
         if String.eqb text "" then ret apology else ret text
     | Response None => ret apology
     end)
    (fun _ => ret difficulties).

End Assistant.

(** ** The routes (server/routes.ts) *)

(** A JSON response: the data of a successful read or creation, or an
    object with a [message]. *)
Inductive Body (A : Type) : Type :=
| Data (a : A)
| Message (message : string).
Arguments Data {A} a.
Arguments Message {A} message.

Record Reply (A : Type) : Type := mkReply {
  status : Z;
  body : Body A
}.
Arguments mkReply {A} status body.
Arguments status {A} r.
Arguments body {A} r.

Definition Handler (A : Type) : Type := MemStorage -> Reply A * MemStorage.

(** [try { const a = await m; res.json(ok(a)) }
     catch (error) { res.status(500).json({ message: failure }) }]. *)
Definition respond {A B} (m : Async A) (ok : A -> Body B) (failure : string)
  : Handler B :=
  fun this =>
    match m this with
    | (Resolved a, this') => (mkReply 200 (ok a), this')
    | (Rejected _, this') => (mkReply 500 (Message failure), this')
    end.

(** A [POST] handler; [validatedData] is the result of the schema's
    [parse], [None] when it throws a [ZodError]. *)
Definition respond_validated {A B} (validatedData : option A)
  (m : A -> Async B) (invalid failure : string) : Handler B :=
  match validatedData with
  | Some data => respond (m data) Data failure
  | None => fun this => (mkReply 400 (Message invalid), this)
  end.

Definition getAccountsRoute : Handler (list Account.t) :=
  respond getAccounts Data "Failed to fetch accounts".

Definition postTransactionRoute (id : string) (now : Date)
  (validatedData : option InsertTransaction.t) : Handler Transaction.t :=
  respond_validated validatedData (createTransaction id now)
    "Invalid transaction data" "Failed to create transaction".

Definition deleteTransactionRoute (id : string) : Handler unit :=
  respond (deleteTransaction id)
    (fun _ => Message "Transaction deleted successfully")
    "Failed to delete transaction".

Definition getDebtsRoute : Handler (list Debt.t) :=
  respond getDebts Data "Failed to fetch debts".

Definition postDebtRoute (id : string) (now : Date)
  (validatedData : option InsertDebt.t) : Handler Debt.t :=
  respond_validated validatedData (createDebt id now)
    "Invalid debt data" "Failed to create debt".

(** [PATCH /api/debts/:id]: [req.body] goes to [updateDebt] as it is, with
    no validation; it is taken here as the [Partial<Debt>] the method
    declares. *)
Definition patchDebtRoute (id : string) (body : PartialDebt.t)
  : Handler unit :=
  respond (updateDebt id body)
    (fun _ => Message "Debt updated successfully") "Failed to update debt".

Definition deleteDebtRoute (id : string) : Handler unit :=
  respond (deleteDebt id)
    (fun _ => Message "Debt deleted successfully") "Failed to delete debt".

Definition getRemindersRoute : Handler (list Reminder.t) :=
  respond getReminders Data "Failed to fetch reminders".

Definition postReminderRoute (id : string) (now : Date)
  (validatedData : option InsertReminder.t) : Handler Reminder.t :=
  respond_validated validatedData (createReminder id now)
    "Invalid reminder data" "Failed to create reminder".

(** [PATCH /api/reminders/:id]: likewise, with a [Partial<Reminder>]. *)
Definition patchReminderRoute (id : string) (body : PartialReminder.t)
  : Handler unit :=
  respond (updateReminder id body)
    (fun _ => Message "Reminder updated successfully")
    "Failed to update reminder".

Definition deleteReminderRoute (id : string) : Handler unit :=
  respond (deleteReminder id)
    (fun _ => Message "Reminder deleted successfully")
    "Failed to delete reminder".

Definition getChatMessagesRoute : Handler (list ChatMessage.t) :=
  respond getChatMessages Data "Failed to fetch chat messages".

Definition deleteChatMessagesRoute : Handler unit :=
  respond clearChatMessages (fun _ => Message "Chat history cleared")
    "Failed to clear chat history".

Section WithAssistant.
Variables getMonth getFullYear : Date -> Z.
Variable generateContent : Prompt.t -> Generated.

(** [POST /api/chat/messages]: the message is saved; for a user's message
    the assistant's reply is generated and saved as well; the response is
    the first message.  [id1], [now1] and [id2], [now2] are the ids and
    dates of the two creations. *)
Definition postChatMessageRoute (id1 : string) (now1 : Date)
  (clock : nat -> Date) (id2 : string) (now2 : Date)
  (validatedData : option InsertChatMessage.t) : Handler ChatMessage.t :=
  respond_validated validatedData
    (fun validatedData =>
       userMessage <- createChatMessage id1 now1 validatedData ;;
       (if InsertChatMessage.isUser validatedData
        then
          aiResponse <-
            generateAIResponse getMonth getFullYear generateContent clock
              (InsertChatMessage.content validatedData) ;;
          createChatMessage id2 now2 (InsertChatMessage.mk aiResponse false) ;;;
          ret tt
        else ret tt) ;;;
       ret userMessage)
    "Invalid message data" "Failed to send message".

Definition summaryRoute (now1 now2 : Date) (clock : nat -> Date)
  : Handler Summary.t :=
  respond (summary getMonth getFullYear now1 now2 clock) Data
    "Failed to generate summary".

End WithAssistant.

(** ** Observations used in the statements *)

(** The balance of the account stored under [id], if there is one. *)
Definition balanceOf (id : string) (this : MemStorage) : option money :=
  option_map Account.balance (JsMap.get id (accounts this)).

(** A double [u] within relative distance 2^-53 of the amount [c / 100]. *)
Definition near_cents (u c : Z) : Prop :=
  2 ^ 53 * Z.abs (u * 100 - c * Float.one)
  <= Z.abs c * Float.one + 2 ^ 52 * 100.

(** The transactions [getTransactions] is asked for: those of the account
    and of the category, when these are given and not the empty string,
    created from [startDate] to [endDate], both included. *)
Definition selected (accountId category : option string)
  (startDate endDate : option Date) (t : Transaction.t) : bool :=
  match truthy accountId with
  | Some a => String.eqb (Transaction.accountId t) a
  | None => true
  end
  && match truthy category with
     | Some c => String.eqb (Category_name (Transaction.category t)) c
     | None => true
     end
  && match startDate with
     | Some d => d <=? Transaction.createdAt t
     | None => true
     end
  && match endDate with
     | Some d => Transaction.createdAt t <=? d
     | None => true
     end.

(** The sum of [amount], by JavaScript number addition in list order
    starting from [sum], over the debts of type [ty] that are not
    settled. *)
Fixpoint unsettled_sum (ty : DebtType) (sum : Float.double)
  (debts : list Debt.t) : Float.double :=
  match debts with
  | [] => sum
  | d :: rest =>
      if Debt.settled d then unsettled_sum ty sum rest
      else if DebtType_eqb (Debt.type d) ty
           then unsettled_sum ty (Float.add sum (parseFloat (Debt.amount d))) rest
           else unsettled_sum ty sum rest
  end.

(** A property named in the payload has the payload's value afterwards;
    one that is not named keeps its previous value. *)
Definition merged {A} (named : option A) (previous current : A) : Prop :=
  match named with
  | Some v => current = v
  | None => current = previous
  end.

Definition debt_updated (updates : PartialDebt.t) (d d' : Debt.t) : Prop :=
  merged (PartialDebt.id updates) (Debt.id d) (Debt.id d') /\
  merged (PartialDebt.friendName updates) (Debt.friendName d)
    (Debt.friendName d') /\
  merged (PartialDebt.type updates) (Debt.type d) (Debt.type d') /\
  merged (PartialDebt.amount updates) (Debt.amount d) (Debt.amount d') /\
  merged (PartialDebt.description updates) (Debt.description d)
    (Debt.description d') /\
  merged (PartialDebt.settled updates) (Debt.settled d) (Debt.settled d') /\
  merged (PartialDebt.createdAt updates) (Debt.createdAt d)
    (Debt.createdAt d').

Definition reminder_updated (updates : PartialReminder.t)
  (r r' : Reminder.t) : Prop :=
  merged (PartialReminder.id updates) (Reminder.id r) (Reminder.id r') /\
  merged (PartialReminder.title updates) (Reminder.title r)
    (Reminder.title r') /\
  merged (PartialReminder.description updates) (Reminder.description r)
    (Reminder.description r') /\
  merged (PartialReminder.amount updates) (Reminder.amount r)
    (Reminder.amount r') /\
  merged (PartialReminder.dueDate updates) (Reminder.dueDate r)
    (Reminder.dueDate r') /\
  merged (PartialReminder.status updates) (Reminder.status r)
    (Reminder.status r') /\
  merged (PartialReminder.recurring updates) (Reminder.recurring r)
    (Reminder.recurring r') /\
  merged (PartialReminder.createdAt updates) (Reminder.createdAt r)
    (Reminder.createdAt r').

(** The balance [createTransaction] computes for the account it finds. *)
Definition newBalance (ins : InsertTransaction.t) (account : Account.t)
  : money :=
  toFixed2
    (if TransactionType_eqb (InsertTransaction.type ins) expense
     then Float.sub (parseFloat (Account.balance account))
            (parseFloat (InsertTransaction.amount ins))
     else Float.add (parseFloat (Account.balance account))
            (parseFloat (InsertTransaction.amount ins))).

(** The transaction [createTransaction] builds. *)
Definition newTransaction (id : string) (now : Date)
  (ins : InsertTransaction.t) : Transaction.t :=
  Transaction.mk id (InsertTransaction.accountId ins)
    (InsertTransaction.type ins) (InsertTransaction.amount ins)
    (InsertTransaction.description ins) (InsertTransaction.category ins) now.

(** A two-decimal amount within [decimal(10, 2)], and its hundredths. *)
Definition inRange (m : money) : Prop :=
  match m with
  | Fixed2 c => Z.abs c < 10 ^ 10
  | NumStr _ => False
  end.

Definition centsOf (m : money) : Z :=
  match m with
  | Fixed2 c => c
  | NumStr _ => 0
  end.

(** The decimal total of a list, in hundredths. *)
Definition totalCents {A} (amount : A -> money) (l : list A) : Z :=
  fold_right (fun x total => centsOf (amount x) + total) 0 l.

(** A bound, in units of 2^-53, on the error of a running binary sum of
    [n] in-range amounts, relative to one hundredth. *)
Fixpoint sumError (n : nat) : Z :=
  match n with
  | O => 0
  | S m => sumError m + Z.of_nat m * 10 ^ 10 + 2 * 10 ^ 10 + 3
  end.

(** ** Sequences of operations *)

(** Posting a list of transactions, each with its id and date, in order. *)
Fixpoint postAll (entries : list (string * Date * InsertTransaction.t))
  : Async unit :=
  match entries with
  | [] => ret tt
  | (id, now, ins) :: rest => createTransaction id now ins ;;; postAll rest
  end.

(** The decimal ledger of the account [k]: from the balance [B], in
    hundredths, each entry against [k] adds its amount for an income and
    subtracts it for an expense; [None] as soon as an amount is not a
    two-decimal string or an amount or a balance leaves the range of
    [decimal(10, 2)]. *)
Fixpoint ledger (k : string) (B : Z)
  (entries : list (string * Date * InsertTransaction.t)) : option Z :=
  match entries with
  | [] => Some B
  | (_, _, ins) :: rest =>
      if String.eqb (InsertTransaction.accountId ins) k
      then match InsertTransaction.amount ins with
           | Fixed2 A =>
               let B' := match InsertTransaction.type ins with
                         | income => B + A
                         | expense => B - A
                         end in
               if (Z.abs A <? 10 ^ 10) && (Z.abs B' <? 10 ^ 10)
               then ledger k B' rest
               else None
           | NumStr _ => None
           end
      else ledger k B rest
  end.

(** The mutating methods of the store, with their arguments. *)
Inductive Operation : Type :=
| CreateAccount (id : string) (now : Date) (ins : InsertAccount.t)
| UpdateAccountBalance (id : string) (balance : money)
| CreateTransaction (id : string) (now : Date) (ins : InsertTransaction.t)
| DeleteTransaction (id : string)
| CreateDebt (id : string) (now : Date) (ins : InsertDebt.t)
| UpdateDebt (id : string) (updates : PartialDebt.t)
| DeleteDebt (id : string)
| CreateReminder (id : string) (now : Date) (ins : InsertReminder.t)
| UpdateReminder (id : string) (updates : PartialReminder.t)
| DeleteReminder (id : string)
| CreateChatMessage (id : string) (now : Date) (ins : InsertChatMessage.t)
| ClearChatMessages.

(** The store after a method has run. *)
Definition perform (this : MemStorage) (op : Operation) : MemStorage :=
  match op with
  | CreateAccount id now ins => snd (createAccount id now ins this)
  | UpdateAccountBalance id balance => snd (updateAccountBalance id balance this)
  | CreateTransaction id now ins => snd (createTransaction id now ins this)
  | DeleteTransaction id => snd (deleteTransaction id this)
  | CreateDebt id now ins => snd (createDebt id now ins this)
  | UpdateDebt id updates => snd (updateDebt id updates this)
  | DeleteDebt id => snd (deleteDebt id this)
  | CreateReminder id now ins => snd (createReminder id now ins this)
  | UpdateReminder id updates => snd (updateReminder id updates this)
  | DeleteReminder id => snd (deleteReminder id this)
  | CreateChatMessage id now ins => snd (createChatMessage id now ins this)
  | ClearChatMessages => snd (clearChatMessages this)
  end.

(** Every entry of a map is stored under its own [id]. *)
Definition keyed {V} (id : V -> string) (m : JsMap.t V) : Prop :=
  forall k v, JsMap.get k m = Some v -> id v = k.

(** The keys of each map are distinct, and accounts, transactions and chat
    messages are stored under their own ids. *)
Definition consistent (this : MemStorage) : Prop :=
  NoDup (JsMap.keys (accounts this)) /\
  NoDup (JsMap.keys (transactions this)) /\
  NoDup (JsMap.keys (debts this)) /\
  NoDup (JsMap.keys (reminders this)) /\
  NoDup (JsMap.keys (chatMessages this)) /\
  keyed Account.id (accounts this) /\
  keyed Transaction.id (transactions this) /\
  keyed ChatMessage.id (chatMessages this).

(** ** Sample data *)

Module Sample.

(** A fresh store: 1700000000000 is 2023-11-14T22:13:20Z. *)
Definition fresh : MemStorage :=
  newMemStorage "acc-main" "acc-savings" 1700000000000 1700000000000.

Definition lunch : InsertTransaction.t :=
  InsertTransaction.mk "acc-main" expense (Fixed2 5000) "Lunch" food.

Definition interest : InsertTransaction.t :=
  InsertTransaction.mk "acc-main" income (Fixed2 10) "Interest" otherCategory.

(** An income of 9007199254740993.00 (2^53 + 1). *)
Definition windfall : InsertTransaction.t :=
  InsertTransaction.mk "acc-main" income (Fixed2 900719925474099300)
    "Windfall" otherCategory.

(** A transaction against an account that does not exist. *)
Definition orphan : InsertTransaction.t :=
  InsertTransaction.mk "no-such-account" expense (Fixed2 5000) "Lunch" food.

Definition loan : InsertDebt.t :=
  InsertDebt.mk "Asha" owe (Fixed2 12050) "Movie tickets" (Some true).

Definition settle : PartialDebt.t :=
  PartialDebt.mk None None None None None (Some true) None.

Definition snooze : PartialReminder.t :=
  PartialReminder.mk None None None None (Some 1700086400000)
    (Some snoozed) None None.

Definition rent : InsertReminder.t :=
  InsertReminder.mk "Rent" None (Fixed2 800000) 1700500000000 pending true.

(** Amounts, in hundredths. *)
Definition cents : list Z :=
  [0; 1; 10; 20; 30; 99; 5000; 12050; 245000; 875000; 9999999999].

(** The fresh store after two transactions, a debt and a reminder. *)
Definition busy : MemStorage :=
  snd ((createTransaction "txn-1" 1700000001000 lunch ;;;
        createTransaction "txn-2" 1700000002000 interest ;;;
        createDebt "debt-1" 1700000003000 loan ;;;
        createReminder "rem-1" 1700000004000 rent) fresh).

End Sample.

(** A longer history: two chat messages of the same millisecond, a second
    debt, settled at once, and two more reminders. *)
Module Scenario.

Definition question : InsertChatMessage.t :=
  InsertChatMessage.mk "How much did I spend on food?" true.

Definition answer : InsertChatMessage.t :=
  InsertChatMessage.mk "You spent 50.00 on food." false.

Definition lent : InsertDebt.t :=
  InsertDebt.mk "Ravi" owed (Fixed2 30000) "Bus pass" None.

Definition phone : InsertReminder.t :=
  InsertReminder.mk "Phone bill" (Some "Prepaid") (Fixed2 29900)
    1700200000000 paid false.

Definition library : InsertReminder.t :=
  InsertReminder.mk "Library fine" None (Fixed2 2000) 1699000000000 pending
    false.

(** Every date of the scenario falls in November 2023. *)
Definition getMonth (d : Date) : Z := 10.
Definition getFullYear (d : Date) : Z := 2023.

(** A clock that stands still. *)
Definition clock (k : nat) : Date := 1700000009000.

Definition store : MemStorage :=
  snd ((createChatMessage "msg-1" 1700000005000 question ;;;
        createChatMessage "msg-2" 1700000005000 answer ;;;
        createDebt "debt-2" 1700000006000 lent ;;;
        updateDebt "debt-2" Sample.settle ;;;
        createReminder "rem-2" 1700000007000 phone ;;;
        createReminder "rem-3" 1700000008000 library) Sample.busy).

End Scenario.

(** * Properties *)

(** ** [JsMap] *)

Module JsMapFacts.
Import JsMap.

Section Facts.
Context {V : Type}.
Implicit Types (m : t V) (k : string) (v : V).

Lemma get_set_same k v m : get k (set k v m) = Some v.
Proof.
  induction m as [|[k' v'] r IH]; simpl.
  - now rewrite String.eqb_refl.
  - destruct (String.eqb k k') eqn:E; simpl; rewrite ?E, ?String.eqb_refl; auto.
Qed.

Lemma get_set_other k k' v m : k' <> k -> get k' (set k v m) = get k' m.
Proof.
  intros Hne. induction m as [|[k0 v0] r IH]; simpl.
  - apply String.eqb_neq in Hne. now rewrite Hne.
  - destruct (String.eqb k k0) eqn:E; simpl.
    + apply String.eqb_eq in E. subst k0.
      apply String.eqb_neq in Hne. now rewrite Hne.
    + now rewrite IH.
Qed.

Lemma keys_set_present k v v0 m :
  get k m = Some v0 -> keys (set k v m) = keys m.
Proof.
  unfold keys. induction m as [|[k' v'] r IH]; simpl; [discriminate|].
  destruct (String.eqb k k') eqn:E; simpl; intros H.
  - apply String.eqb_eq in E. now subst.
  - now rewrite IH.
Qed.

Lemma get_delete_same k m : get k (delete k m) = None.
Proof.
  induction m as [|[k' v'] r IH]; simpl; auto.
  destruct (String.eqb k k') eqn:E; simpl; rewrite ?E; auto.
Qed.

Lemma get_delete_other k k' m : k' <> k -> get k' (delete k m) = get k' m.
Proof.
  intros Hne. induction m as [|[k0 v0] r IH]; simpl; auto.
  destruct (String.eqb k k0) eqn:E; simpl.
  - apply String.eqb_eq in E. subst k0.
    apply String.eqb_neq in Hne. now rewrite Hne.
  - now rewrite IH.
Qed.

Lemma delete_absent k m : get k m = None -> delete k m = m.
Proof.
  induction m as [|[k' v'] r IH]; simpl; auto.
  destruct (String.eqb k k') eqn:E; [discriminate|].
  intros H. now rewrite IH.
Qed.

Lemma get_none_not_in k m : get k m = None -> ~ In k (keys m).
Proof.
  unfold keys. induction m as [|[k' v'] r IH]; simpl; auto.
  destruct (String.eqb k k') eqn:E; [discriminate|].
  apply String.eqb_neq in E. intros H [H1|H1]; [congruence|].
  now apply IH.
Qed.

Lemma not_in_get_none k m : ~ In k (keys m) -> get k m = None.
Proof.
  unfold keys. induction m as [|[k' v'] r IH]; simpl; auto.
  intros H. destruct (String.eqb k k') eqn:E.
  - apply String.eqb_eq in E. subst. tauto.
  - apply IH. tauto.
Qed.

Lemma keys_set_absent k v m :
  get k m = None -> keys (set k v m) = keys m ++ [k].
Proof.
  unfold keys. induction m as [|[k' v'] r IH]; simpl; auto.
  destruct (String.eqb k k') eqn:E; [discriminate|].
  intros H. simpl. now rewrite IH.
Qed.

(** The operations keep the keys distinct. *)
Lemma set_NoDup k v m : NoDup (keys m) -> NoDup (keys (set k v m)).
Proof.
  intros Hnd. destruct (get k m) as [v0|] eqn:E.
  - now rewrite (keys_set_present k v v0 m E).
  - rewrite (keys_set_absent k v m E).
    apply NoDup_rev in Hnd. rewrite <- (rev_involutive (keys m ++ [k])).
    apply NoDup_rev. rewrite rev_app_distr. simpl.
    constructor; auto. rewrite <- in_rev. now apply get_none_not_in.
Qed.

Lemma in_keys_delete k k' m :
  In k' (keys (delete k m)) -> In k' (keys m).
Proof.
  unfold keys. induction m as [|[k0 v0] r IH]; simpl; auto.
  destruct (String.eqb k k0); simpl; tauto.
Qed.

Lemma delete_NoDup k m : NoDup (keys m) -> NoDup (keys (delete k m)).
Proof.
  induction m as [|[k' v'] r IH]; simpl; auto.
  intros H. inversion H as [|? ? Hnotin Hnd]; subst.
  destruct (String.eqb k k'); auto.
  simpl. constructor; auto.
  intros Hin. apply Hnotin. now apply in_keys_delete with k.
Qed.

(** With distinct keys, the entry of a present key splits the values. *)
Lemma values_split k v0 m :
  NoDup (keys m) -> get k m = Some v0 ->
  exists pre post,
    values m = pre ++ v0 :: post /\
    (forall v, values (set k v m) = pre ++ v :: post) /\
    values (delete k m) = pre ++ post.
Proof.
  unfold keys, values. induction m as [|[k' v'] r IH]; simpl; [discriminate|].
  intros Hnd Hget. inversion Hnd as [|? ? Hnotin Hnd']; subst.
  destruct (String.eqb k k') eqn:E.
  - apply String.eqb_eq in E. subst k'. injection Hget as ->.
    exists [], (map snd r). simpl. repeat split; auto.
    f_equal. apply delete_absent. now apply not_in_get_none.
  - destruct (IH Hnd' Hget) as (pre & post & H1 & H2 & H3).
    exists (v' :: pre), post. simpl. rewrite H1, H3.
    repeat split; auto. intros v. now rewrite H2.
Qed.
End Facts.
End JsMapFacts.

(** ** The stable sort *)

Section SortFacts.
Context {A : Type} (cmp : A -> A -> Z).

Lemma insert_by_perm x l : Permutation (insert_by cmp x l) (x :: l).
Proof.
  induction l as [|y r IH]; simpl; auto.
  destruct (cmp x y <=? 0); auto.
  rewrite IH. apply perm_swap.
Qed.

Lemma sort_by_perm l : Permutation (sort_by cmp l) l.
Proof.
  induction l as [|x r IH]; simpl; auto.
  rewrite insert_by_perm. now constructor.
Qed.

Lemma insert_by_head x l :
  Forall (before cmp x) l -> insert_by cmp x l = x :: l.
Proof.
  destruct l as [|y r]; simpl; auto.
  intros H. inversion H as [|? ? Hxy _]; subst.
  unfold before in Hxy. apply Z.leb_le in Hxy. now rewrite Hxy.
Qed.

(** The comparators of the store are differences of a key, hence total
    and transitive. *)
Hypothesis cmp_total : forall a b, ~ cmp a b <= 0 -> cmp b a <= 0.
Hypothesis cmp_trans :
  forall a b c, cmp a b <= 0 -> cmp b c <= 0 -> cmp a c <= 0.

Lemma insert_by_sorted x l :
  StronglySorted (before cmp) l -> StronglySorted (before cmp) (insert_by cmp x l).
Proof.
  induction 1 as [|y r Hr IH Hy]; simpl.
  - repeat constructor.
  - destruct (cmp x y <=? 0) eqn:E.
    + apply Z.leb_le in E. constructor.
      * now constructor.
      * constructor; auto.
        eapply Forall_impl; [|exact Hy].
        intros z Hz. now apply cmp_trans with y.
    + apply Z.leb_gt in E. constructor; auto.
      eapply Permutation_Forall.
      * symmetry. apply insert_by_perm.
      * constructor; auto. apply cmp_total. lia.
Qed.

Lemma sort_by_sorted l : StronglySorted (before cmp) (sort_by cmp l).
Proof.
  induction l as [|x r IH]; simpl.
  - constructor.
  - now apply insert_by_sorted.
Qed.

(** Filtering commutes with the sort: dropping elements does not
    reorder the others. *)
Lemma filter_insert_by p x l :
  StronglySorted (before cmp) l ->
  filter p (insert_by cmp x l) =
  if p x then insert_by cmp x (filter p l) else filter p l.
Proof.
  induction 1 as [|y r Hr IH Hy]; simpl.
  - now destruct (p x).
  - destruct (cmp x y <=? 0) eqn:E; simpl.
    + destruct (p x) eqn:Px; auto.
      destruct (p y) eqn:Py; simpl.
      * now rewrite E.
      * symmetry. apply insert_by_head.
        apply Z.leb_le in E.
        apply Forall_forall. intros z Hz.
        apply filter_In in Hz. destruct Hz as [Hz _].
        rewrite Forall_forall in Hy.
        apply cmp_trans with y; auto. now apply Hy.
    + rewrite IH. destruct (p y) eqn:Py, (p x) eqn:Px; simpl; auto.
      now rewrite E.
Qed.

Lemma filter_sort_by p l :
  filter p (sort_by cmp l) = sort_by cmp (filter p l).
Proof.
  induction l as [|x r IH]; simpl; auto.
  rewrite filter_insert_by by apply sort_by_sorted.
  rewrite IH. now destruct (p x).
Qed.
End SortFacts.

Lemma StronglySorted_weaken {A} (R S : A -> A -> Prop) l :
  (forall a b, R a b -> S a b) -> StronglySorted R l -> StronglySorted S l.
Proof.
  intros HRS. induction 1 as [|x r Hr IH Hx]; constructor; auto.
  eapply Forall_impl; [|exact Hx]. auto.
Qed.

Section KeyOrder.
Context {A : Type} (key : A -> Z).

Lemma sort_ascending l :
  StronglySorted (fun a b => key a <= key b) (sort_by (ascending key) l).
Proof.
  apply StronglySorted_weaken with (R := before (ascending key)).
  - unfold before, ascending. intros a b H. lia.
  - apply sort_by_sorted; unfold ascending; intros; lia.
Qed.

Lemma sort_descending l :
  StronglySorted (fun a b => key b <= key a) (sort_by (descending key) l).
Proof.
  apply StronglySorted_weaken with (R := before (descending key)).
  - unfold before, descending. intros a b H. lia.
  - apply sort_by_sorted; unfold descending; intros; lia.
Qed.

(** A weakly descending list whose keys are pairwise distinct descends
    strictly. *)
Lemma descending_strict l :
  NoDup (map key l) ->
  StronglySorted (fun a b => key b <= key a) l ->
  StronglySorted (fun a b => key b < key a) l.
Proof.
  induction l as [|x r IH]; intros Hnd Hs; [constructor|].
  inversion Hnd as [|? ? Hnotin Hnd']; subst.
  inversion Hs as [|? ? Hs' Hall]; subst.
  constructor; auto.
  apply Forall_forall. intros z Hz.
  rewrite Forall_forall in Hall. specialize (Hall z Hz).
  assert (key z <> key x).
  { intros Heq. apply Hnotin. rewrite <- Heq. now apply in_map. }
  lia.
Qed.

Lemma filter_sort_descending p l :
  filter p (sort_by (descending key) l) = sort_by (descending key) (filter p l).
Proof.
  apply filter_sort_by; unfold descending; intros; lia.
Qed.
End KeyOrder.

(** ** Rounding error of the binary64 model *)

Module FloatFacts.
Import Float.

Lemma half_even_bound a d :
  0 <= a -> 0 < d -> 2 * Z.abs (half_even a d * d - a) <= d.
Proof.
  intros Ha Hd. unfold half_even.
  pose proof (Z.div_mod a d ltac:(lia)) as Hdm.
  pose proof (Z.mod_pos_bound a d Hd) as Hr.
  set (q := a / d) in *. set (r := a mod d) in *.
  destruct (2 * r <? d) eqn:E1; [apply Z.ltb_lt in E1; nia|].
  apply Z.ltb_ge in E1.
  destruct (d <? 2 * r) eqn:E2; [apply Z.ltb_lt in E2; nia|].
  apply Z.ltb_ge in E2.
  destruct (Z.even q); nia.
Qed.

Lemma half_even_nonneg a d : 0 <= a -> 0 < d -> 0 <= half_even a d.
Proof.
  intros Ha Hd. unfold half_even.
  pose proof (Z.div_pos a d Ha Hd).
  repeat match goal with |- context [if ?b then _ else _] => destruct b end; lia.
Qed.

Lemma magnitude_nonneg a den : 0 <= a -> 0 < den -> 0 <= magnitude a den.
Proof.
  intros Ha Hd. unfold magnitude.
  set (s := Z.max 0 _).
  assert (0 < 2 ^ s) by (apply Z.pow_pos_nonneg; lia).
  pose proof (half_even_nonneg a (den * 2 ^ s) Ha ltac:(nia)). nia.
Qed.

(** Relative error at most 2^-53, or half a unit in the last place of
    the first binade. *)
Lemma magnitude_error a den :
  0 <= a -> 0 < den ->
  2 ^ 53 * Z.abs (magnitude a den * den - a) <= a + 2 ^ 52 * den.
Proof.
  intros Ha Hd. unfold magnitude.
  set (q := a / den).
  set (s := Z.max 0 (Z.log2 q - 52)).
  assert (Hs : 0 <= s) by lia.
  assert (HP : 0 < 2 ^ s) by (apply Z.pow_pos_nonneg; lia).
  pose proof (half_even_bound a (den * 2 ^ s) Ha ltac:(nia)) as Hh.
  set (h := half_even a (den * 2 ^ s)) in *.
  replace (h * 2 ^ s * den) with (h * (den * 2 ^ s)) by ring.
  assert (HPq : 2 ^ 52 * (den * 2 ^ s) <= a + 2 ^ 52 * den).
  { destruct (Z.le_gt_cases (Z.log2 q) 52) as [Hl|Hl].
    - replace s with 0 by lia. rewrite Z.pow_0_r. lia.
    - assert (Hq : 0 < q).
      { destruct (Z.lt_ge_cases 0 q); auto.
        rewrite (Z.log2_nonpos q) in Hl by lia. lia. }
      pose proof (Z.log2_spec q Hq) as [Hlo _].
      replace (Z.log2 q) with (52 + s) in Hlo by lia.
      rewrite Z.pow_add_r in Hlo by lia.
      pose proof (Z.mul_div_le a den Hd). fold q in H.
      nia. }
  change (2 ^ 53) with (2 * 2 ^ 52). lia.
Qed.

Lemma rne_fin num den :
  0 < den -> magnitude (Z.abs num) den < overflow ->
  rne num den = Fin (Z.sgn num * magnitude (Z.abs num) den).
Proof.
  intros Hd Hm. unfold rne.
  apply Z.leb_gt in Hm. now rewrite Hm.
Qed.

Lemma magnitude_upper a den :
  0 <= a -> 0 < den -> magnitude a den * den <= 2 * a + den.
Proof.
  intros Ha Hd. pose proof (magnitude_error a den Ha Hd) as H.
  assert (0 < 2 ^ 52) by reflexivity.
  change (2 ^ 53) with (2 * 2 ^ 52) in H. lia.
Qed.

Lemma rne_finite num den :
  0 < den -> 2 * Z.abs num + den < overflow * den ->
  exists u, rne num den = Fin u /\
    2 ^ 53 * Z.abs (u * den - num) <= Z.abs num + 2 ^ 52 * den.
Proof.
  intros Hd Hov.
  pose proof (magnitude_upper (Z.abs num) den ltac:(lia) Hd) as Hup.
  pose proof (magnitude_error (Z.abs num) den ltac:(lia) Hd) as Herr.
  pose proof (magnitude_nonneg (Z.abs num) den ltac:(lia) Hd) as Hnn.
  exists (Z.sgn num * magnitude (Z.abs num) den). split.
  - apply rne_fin; auto. nia.
  - set (m := magnitude (Z.abs num) den) in *.
    destruct (Z.lt_trichotomy num 0) as [Hn|[Hn|Hn]].
    + rewrite (Z.sgn_neg num Hn).
      replace (-1 * m * den - num) with (- (m * den - Z.abs num)) by lia.
      now rewrite Z.abs_opp.
    + subst num. simpl Z.sgn. simpl Z.abs in *.
      replace (0 * m * den - 0) with 0 by ring.
      simpl Z.abs. lia.
    + rewrite (Z.sgn_pos num Hn).
      replace (1 * m * den - num) with (m * den - Z.abs num) by lia.
      exact Herr.
Qed.

(** [toFixed(2)] recovers the hundredths [K] from any number closer to
    [K / 100] than half a hundredth. *)
Lemma toFixed2_near U s K :
  0 < U -> Z.abs (200 * s - 2 * K * U) < U ->
  Z.sgn s * ((200 * Z.abs s + U) / (2 * U)) = K.
Proof.
  intros HU H.
  destruct (Z.lt_trichotomy s 0) as [Hs|[Hs|Hs]].
  - rewrite (Z.sgn_neg s Hs), (Z.abs_neq s) by lia.
    assert ((200 * - s + U) / (2 * U) = - K); [|lia].
    symmetry. apply Z.div_unique with (r := 200 * - s + U - 2 * U * - K); lia.
  - subst s. simpl. nia.
  - rewrite (Z.sgn_pos s Hs), (Z.abs_eq s) by lia.
    assert ((200 * s + U) / (2 * U) = K); [|lia].
    symmetry. apply Z.div_unique with (r := 200 * s + U - 2 * U * K); lia.
Qed.

Lemma one_large : 2 ^ 60 <= one.
Proof. unfold one. apply Z.pow_le_mono_r; lia. Qed.

Lemma overflow_large : 2 ^ 60 * one <= overflow.
Proof.
  unfold overflow. apply Z.mul_le_mono_nonneg_r.
  - pose proof one_large. lia.
  - apply Z.pow_le_mono_r; lia.
Qed.

Lemma parseFloat_cents c :
  Z.abs c < 10 ^ 10 ->
  exists u, parseFloat (Fixed2 c) = Fin u /\ near_cents u c.
Proof.
  intros Hc. unfold parseFloat, near_cents.
  pose proof one_large as H1. pose proof overflow_large as H2.
  assert (Habs : Z.abs (c * one) = Z.abs c * one).
  { rewrite Z.abs_mul, (Z.abs_eq one) by lia. reflexivity. }
  assert (Hov : 2 * Z.abs (c * one) + 100 < overflow * 100).
  { rewrite Habs. nia. }
  destruct (rne_finite (c * one) 100 ltac:(lia) Hov) as (u & Hu & He).
  exists u. split; auto. now rewrite Habs in He.
Qed.

Lemma near_cents_opp u c : near_cents u c -> near_cents (- u) (- c).
Proof.
  unfold near_cents. intros H.
  replace (- u * 100 - - c * one) with (- (u * 100 - c * one)) by ring.
  now rewrite !Z.abs_opp.
Qed.

Lemma add_near_cents ub ua B A :
  Z.abs B < 10 ^ 10 -> Z.abs A < 10 ^ 10 ->
  near_cents ub B -> near_cents ua A ->
  toFixed2 (add (Fin ub) (Fin ua)) = Fixed2 (B + A).
Proof.
  unfold near_cents. intros HB HA Hb Ha. simpl add.
  pose proof one_large as H1. pose proof overflow_large as H2.
  remember one as U eqn:HU. remember overflow as O eqn:HO.
  assert (HBU : Z.abs B * U <= 10 ^ 10 * U) by nia.
  assert (HAU : Z.abs A * U <= 10 ^ 10 * U) by nia.
  change (2 ^ 53) with 9007199254740992 in *.
  change (2 ^ 52) with 4503599627370496 in *.
  change (2 ^ 60) with 1152921504606846976 in *.
  change (10 ^ 10) with 10000000000 in *.
  assert (Hn : 100 * Z.abs (ub + ua) <= 3 * 10000000000 * U) by lia.
  assert (Hov : 2 * Z.abs (ub + ua) + 1 < O * 1) by lia.
  rewrite HO in Hov.
  destruct (rne_finite (ub + ua) 1 ltac:(lia) Hov) as (s & Hs & He).
  clear Hov. rewrite Hs. unfold toFixed2. rewrite <- HU.
  change (2 ^ 53) with 9007199254740992 in *.
  change (2 ^ 52) with 4503599627370496 in *.
  assert (Hfix : (10 ^ 21 * U <=? Z.abs s) = false).
  { apply Z.leb_gt. change (10 ^ 21) with 1000000000000000000000. lia. }
  rewrite Hfix. f_equal.
  apply toFixed2_near; lia.
Qed.
(** The model agrees with [SpecFloat] on sample amounts and on their sums
    and differences with the seed balance. *)
Example parseFloat_agrees_with_SpecFloat :
  forallb
    (fun c =>
       match of_spec (spec_cents c), parseFloat (Fixed2 c) with
       | Fin a, Fin b => a =? b
       | _, _ => false
       end)
    Sample.cents = true.
Proof. vm_compute. reflexivity. Qed.

Example add_sub_agree_with_SpecFloat :
  forallb
    (fun c =>
       match of_spec (SFadd 53 1024 (spec_cents 245000) (spec_cents c)),
             add (parseFloat (Fixed2 245000)) (parseFloat (Fixed2 c)),
             of_spec (SFsub 53 1024 (spec_cents 245000) (spec_cents c)),
             sub (parseFloat (Fixed2 245000)) (parseFloat (Fixed2 c))
       with
       | Fin a, Fin b, Fin a', Fin b' => (a =? b) && (a' =? b')
       | _, _, _, _ => false
       end)
    Sample.cents = true.
Proof. vm_compute. reflexivity. Qed.

(** 2^53 + 1 is not a double: it reads as 2^53. *)
Example parseFloat_2_53_plus_1 :
  parseFloat (Fixed2 900719925474099300) = Fin (2 ^ 53 * one) /\
  parseFloat (Fixed2 900719925474099300) =
    of_spec (spec_integer 9007199254740993).
Proof. split; vm_compute; reflexivity. Qed.

(** 0.10 + 0.20 is not the double 0.30, yet prints as "0.30";
    100.00 + 0.10 prints as "100.10". *)
Example add_tenths :
  add (parseFloat (Fixed2 10)) (parseFloat (Fixed2 20))
    <> parseFloat (Fixed2 30) /\
  toFixed2 (add (parseFloat (Fixed2 10)) (parseFloat (Fixed2 20))) =
    Fixed2 30 /\
  toFixed2 (add (parseFloat (Fixed2 10000)) (parseFloat (Fixed2 10))) =
    Fixed2 10010.
Proof.
  split; [vm_compute; discriminate|]. split; vm_compute; reflexivity.
Qed.

End FloatFacts.

(** ** The store *)

Ltac run :=
  unfold createTransaction, deleteTransaction, updateAccountBalance,
    createDebt, updateDebt, deleteDebt, updateReminder, deleteReminder,
    getTransactions, getDebts, getReminders, getAccounts, netDebt,
    bind, read, write, ret; simpl.

(** [createTransaction] always puts the new transaction in the map, before
    it looks the account up. *)
Lemma createTransaction_stores this id now ins :
  JsMap.get id (transactions (snd (createTransaction id now ins this))) =
  Some (Transaction.mk id (InsertTransaction.accountId ins)
          (InsertTransaction.type ins) (InsertTransaction.amount ins)
          (InsertTransaction.description ins)
          (InsertTransaction.category ins) now).
Proof.
  run. destruct (JsMap.get _ (accounts this)) eqn:E; simpl; rewrite ?E; simpl;
    apply JsMapFacts.get_set_same.
Qed.




(** The balance [createTransaction] writes for an existing account. *)
Lemma createTransaction_new_balance this id now ins account :
  JsMap.get (InsertTransaction.accountId ins) (accounts this) = Some account ->
  balanceOf (InsertTransaction.accountId ins)
    (snd (createTransaction id now ins this)) =
  Some (toFixed2
          (if TransactionType_eqb (InsertTransaction.type ins) expense
           then Float.sub (parseFloat (Account.balance account))
                  (parseFloat (InsertTransaction.amount ins))
           else Float.add (parseFloat (Account.balance account))
                  (parseFloat (InsertTransaction.amount ins)))).
Proof.
  intros Hacc. unfold balanceOf. run. rewrite Hacc. simpl. rewrite Hacc. simpl.
  now rewrite JsMapFacts.get_set_same.
Qed.

(** C2, as amended.  For an account whose balance [B] and a transaction
    whose amount [A] are two-decimal values within the schema's
    [decimal(10, 2)] (below 10^8 in magnitude, that is 10^10 hundredths),
    the balance after [createTransaction] is exactly [B + A] for an income
    and [B - A] for an expense.  The store computes it in binary64
    ([parseFloat], [+] or [-], [toFixed(2)]); in this range the result
    coincides with the exact decimal one. *)
Theorem createTransaction_balance_exact this id now ins account B A :
  JsMap.get (InsertTransaction.accountId ins) (accounts this) = Some account ->
  Account.balance account = Fixed2 B ->
  InsertTransaction.amount ins = Fixed2 A ->
  Z.abs B < 10 ^ 10 ->
  Z.abs A < 10 ^ 10 ->
  balanceOf (InsertTransaction.accountId ins)
    (snd (createTransaction id now ins this)) =
  Some (Fixed2 (match InsertTransaction.type ins with
                | income => B + A
                | expense => B - A
                end)).
Proof.
  intros Hacc HB HA HBr HAr.
  rewrite (createTransaction_new_balance _ _ _ _ _ Hacc), HB, HA.
  destruct (FloatFacts.parseFloat_cents B HBr) as (ub & Hub & Hnb).
  destruct (FloatFacts.parseFloat_cents A HAr) as (ua & Hua & Hna).
  rewrite Hub, Hua. f_equal.
  destruct (InsertTransaction.type ins); simpl TransactionType_eqb; cbv iota.
  - unfold Float.sub, Float.neg.
    replace (B - A) with (B + - A) by ring.
    apply FloatFacts.add_near_cents; auto.
    + now rewrite Z.abs_opp.
    + now apply FloatFacts.near_cents_opp.
  - now apply FloatFacts.add_near_cents.
Qed.

Lemma createTransaction_balance_exact_witness :
  JsMap.get (InsertTransaction.accountId Sample.interest)
    (accounts Sample.fresh) =
    Some (Account.mk "acc-main" "Main Account" main (Fixed2 245000)
            1700000000000) /\
  Z.abs 245000 < 10 ^ 10 /\
  Z.abs 10 < 10 ^ 10 /\
  balanceOf "acc-main"
    (snd (createTransaction "txn-2" 1700000002000 Sample.interest
            Sample.fresh)) = Some (Fixed2 245010).
Proof.
  assert (H : JsMap.get (InsertTransaction.accountId Sample.interest)
                (accounts Sample.fresh) =
              Some (Account.mk "acc-main" "Main Account" main (Fixed2 245000)
                      1700000000000)) by reflexivity.
  assert (HB : Z.abs 245000 < 10 ^ 10) by reflexivity.
  assert (HA : Z.abs 10 < 10 ^ 10) by reflexivity.
  split; [exact H|]. split; [exact HB|]. split; [exact HA|].
  exact (createTransaction_balance_exact Sample.fresh "txn-2" 1700000002000
           Sample.interest _ 245000 10 H eq_refl eq_refl HB HA).
Defined.

(** C2 as stated fails: an income of 9007199254740993.00 on the seed
    balance 2450.00 leaves 9007199254743442.00, one unit short of the
    decimal sum, because [parseFloat] rounds the amount to 2^53. *)
Lemma createTransaction_balance_counterexample :
  balanceOf "acc-main" Sample.fresh = Some (Fixed2 245000) /\
  InsertTransaction.amount Sample.windfall = Fixed2 900719925474099300 /\
  balanceOf "acc-main"
    (snd (createTransaction "txn-1" 1700000001000 Sample.windfall
            Sample.fresh)) = Some (Fixed2 900719925474344200) /\
  balanceOf "acc-main"
    (snd (createTransaction "txn-1" 1700000001000 Sample.windfall
            Sample.fresh)) <> Some (Fixed2 (245000 + 900719925474099300)).
Proof.
  assert (H : balanceOf "acc-main"
                (snd (createTransaction "txn-1" 1700000001000 Sample.windfall
                        Sample.fresh)) = Some (Fixed2 900719925474344200))
    by (vm_compute; reflexivity).
  repeat split; try reflexivity; try exact H.
  rewrite H. discriminate.
Qed.

(** C3, as amended.  [updateDebt] and [updateReminder] on an id that is not
    in the map do not reject: the promise resolves and the store is left as
    it was. *)
Theorem update_unknown_id_is_silent this id :
  (forall updates,
     JsMap.get id (debts this) = None ->
     updateDebt id updates this = (Resolved tt, this)) /\
  (forall updates,
     JsMap.get id (reminders this) = None ->
     updateReminder id updates this = (Resolved tt, this)).
Proof.
  split; intros updates Hnone; run; now rewrite Hnone.
Qed.

Lemma update_unknown_id_is_silent_witness :
  JsMap.get "debt-9" (debts Sample.busy) = None /\
  JsMap.get "rem-9" (reminders Sample.busy) = None /\
  updateDebt "debt-9" Sample.settle Sample.busy = (Resolved tt, Sample.busy) /\
  updateReminder "rem-9" Sample.snooze Sample.busy =
    (Resolved tt, Sample.busy).
Proof.
  assert (Hd : JsMap.get "debt-9" (debts Sample.busy) = None)
    by (vm_compute; reflexivity).
  assert (Hr : JsMap.get "rem-9" (reminders Sample.busy) = None)
    by (vm_compute; reflexivity).
  split; [exact Hd|]. split; [exact Hr|]. split.
  - exact (proj1 (update_unknown_id_is_silent Sample.busy "debt-9")
             Sample.settle Hd).
  - exact (proj2 (update_unknown_id_is_silent Sample.busy "rem-9")
             Sample.snooze Hr).
Defined.

(** C3 as stated fails: settling a debt that does not exist resolves; it is
    not rejected with [NotFoundError]. *)
Lemma update_unknown_id_counterexample :
  JsMap.get "debt-9" (debts Sample.busy) = None /\
  JsMap.get "rem-9" (reminders Sample.busy) = None /\
  fst (updateDebt "debt-9" Sample.settle Sample.busy) = Resolved tt /\
  fst (updateDebt "debt-9" Sample.settle Sample.busy)
    <> Rejected NotFoundError /\
  fst (updateReminder "rem-9" Sample.snooze Sample.busy) = Resolved tt /\
  fst (updateReminder "rem-9" Sample.snooze Sample.busy)
    <> Rejected NotFoundError.
Proof.
  assert (Hd : fst (updateDebt "debt-9" Sample.settle Sample.busy)
               = Resolved tt) by (vm_compute; reflexivity).
  assert (Hr : fst (updateReminder "rem-9" Sample.snooze Sample.busy)
               = Resolved tt) by (vm_compute; reflexivity).
  split; [vm_compute; reflexivity|]. split; [vm_compute; reflexivity|].
  split; [exact Hd|]. split; [rewrite Hd; discriminate|].
  split; [exact Hr|]. rewrite Hr; discriminate.
Qed.

(** C4.  [deleteTransaction] resolves and touches the transaction map only:
    every account keeps its balance, so the amount a transaction added or
    subtracted when it was created stays in the balance after the
    transaction is deleted, and the accounts, debts, reminders and chat
    messages are as before. *)
Theorem deleteTransaction_frame this id :
  fst (deleteTransaction id this) = Resolved tt /\
  (forall k, balanceOf k (snd (deleteTransaction id this)) = balanceOf k this) /\
  accounts (snd (deleteTransaction id this)) = accounts this /\
  debts (snd (deleteTransaction id this)) = debts this /\
  reminders (snd (deleteTransaction id this)) = reminders this /\
  chatMessages (snd (deleteTransaction id this)) = chatMessages this /\
  transactions (snd (deleteTransaction id this)) =
    JsMap.delete id (transactions this).
Proof.
  unfold balanceOf. run. auto 10.
Qed.

(** The balance after creating a transaction and deleting it again is the
    balance after creating it. *)
Lemma create_then_delete_balance this id now ins k :
  balanceOf k
    (snd ((createTransaction id now ins ;;; deleteTransaction id) this)) =
  balanceOf k (snd (createTransaction id now ins this)).
Proof.
  unfold bind at 1.
  destruct (createTransaction id now ins this) as [[t|e] this'] eqn:E; simpl.
  - reflexivity.
  - reflexivity.
Qed.

(** C5.  Deleting is idempotent.  [deleteTransaction], [deleteDebt] and
    [deleteReminder] on an id that is absent resolve and leave the store as
    it was; after any delete the id is absent, so a second delete of the
    same id is such a no-op. *)
Theorem delete_idempotent this id :
  ((JsMap.get id (transactions this) = None ->
    deleteTransaction id this = (Resolved tt, this)) /\
   fst (deleteTransaction id this) = Resolved tt /\
   JsMap.get id (transactions (snd (deleteTransaction id this))) = None /\
   deleteTransaction id (snd (deleteTransaction id this)) =
     (Resolved tt, snd (deleteTransaction id this))) /\
  ((JsMap.get id (debts this) = None ->
    deleteDebt id this = (Resolved tt, this)) /\
   fst (deleteDebt id this) = Resolved tt /\
   JsMap.get id (debts (snd (deleteDebt id this))) = None /\
   deleteDebt id (snd (deleteDebt id this)) =
     (Resolved tt, snd (deleteDebt id this))) /\
  ((JsMap.get id (reminders this) = None ->
    deleteReminder id this = (Resolved tt, this)) /\
   fst (deleteReminder id this) = Resolved tt /\
   JsMap.get id (reminders (snd (deleteReminder id this))) = None /\
   deleteReminder id (snd (deleteReminder id this)) =
     (Resolved tt, snd (deleteReminder id this))).
Proof.
  destruct this as [acc txn dbt rem chat].
  repeat split; run; unfold with_transactions, with_debts, with_reminders;
    simpl; try intros Hnone;
    rewrite ?JsMapFacts.get_delete_same;
    rewrite ?(JsMapFacts.delete_absent id (JsMap.delete id _))
      by apply JsMapFacts.get_delete_same;
    rewrite ?JsMapFacts.delete_absent by assumption;
    reflexivity.
Qed.

Lemma delete_idempotent_witness :
  JsMap.get "txn-9" (transactions Sample.busy) = None /\
  deleteTransaction "txn-9" Sample.busy = (Resolved tt, Sample.busy) /\
  JsMap.get "txn-1" (transactions Sample.busy) <> None /\
  deleteTransaction "txn-1" (snd (deleteTransaction "txn-1" Sample.busy)) =
    (Resolved tt, snd (deleteTransaction "txn-1" Sample.busy)).
Proof.
  assert (H : JsMap.get "txn-9" (transactions Sample.busy) = None)
    by (vm_compute; reflexivity).
  split; [exact H|]. split.
  - exact (proj1 (proj1 (delete_idempotent Sample.busy "txn-9")) H).
  - split; [vm_compute; discriminate|].
    exact (proj2 (proj2 (proj2 (proj1
             (delete_idempotent Sample.busy "txn-1"))))).
Defined.

(** ** Listing *)

Lemma filter_filter {A} (p q : A -> bool) l :
  filter q (filter p l) = filter (fun x => p x && q x) l.
Proof.
  induction l as [|x r IH]; simpl; auto.
  destruct (p x); simpl; [destruct (q x)|]; now rewrite IH.
Qed.

Lemma filter_true {A} (l : list A) : filter (fun _ => true) l = l.
Proof. induction l as [|x r IH]; simpl; now rewrite ?IH. Qed.

Lemma filter_opt_filter {A B} (arg : option B) (p : B -> A -> bool) l :
  filter_opt arg p l =
  filter (fun x => match arg with Some b => p b x | None => true end) l.
Proof. destruct arg; simpl; auto. now rewrite filter_true. Qed.

(** The four optional filters of [getTransactions] select together. *)
Lemma getTransactions_filters accountId category startDate endDate l :
  filter_opt endDate (fun endDate t => Transaction.createdAt t <=? endDate)
    (filter_opt startDate
       (fun startDate t => startDate <=? Transaction.createdAt t)
       (filter_opt (truthy category)
          (fun category t =>
             String.eqb (Category_name (Transaction.category t)) category)
          (filter_opt (truthy accountId)
             (fun accountId t => String.eqb (Transaction.accountId t) accountId)
             l))) =
  filter (selected accountId category startDate endDate) l.
Proof.
  rewrite !filter_opt_filter, !filter_filter.
  apply filter_ext. intros t. unfold selected. now rewrite !andb_assoc.
Qed.

Lemma NoDup_map_filter {A B} (f : A -> B) (p : A -> bool) l :
  NoDup (map f l) -> NoDup (map f (filter p l)).
Proof.
  induction l as [|x r IH]; simpl; auto.
  intros H. inversion H as [|? ? Hnotin Hnd]; subst.
  destruct (p x); simpl; auto.
  constructor; auto.
  intros Hin. apply Hnotin. apply in_map_iff in Hin.
  destruct Hin as (y & Hy & Hin). apply filter_In in Hin.
  apply in_map_iff. exists y. tauto.
Qed.

(** C6.  When the stored transactions have pairwise distinct [createdAt],
    [getTransactions] resolves with the selected ones (of the account and
    category asked for, created within the inclusive date range) in
    strictly descending order of [createdAt]; [getReminders] resolves, in
    every store, with the reminders in ascending order of [dueDate].
    Neither changes the store. *)
Theorem listing_order this :
  (forall accountId category startDate endDate,
     NoDup (map Transaction.createdAt (JsMap.values (transactions this))) ->
     exists l,
       getTransactions accountId category startDate endDate this =
         (Resolved l, this) /\
       StronglySorted
         (fun a b => Transaction.createdAt b < Transaction.createdAt a) l /\
       Permutation l
         (filter (selected accountId category startDate endDate)
            (JsMap.values (transactions this)))) /\
  (exists l,
     getReminders this = (Resolved l, this) /\
     StronglySorted (fun a b => Reminder.dueDate a <= Reminder.dueDate b) l /\
     Permutation l (JsMap.values (reminders this))).
Proof.
  split.
  - intros accountId category startDate endDate Hnd.
    eexists. split; [run; reflexivity|].
    rewrite getTransactions_filters.
    set (l := filter _ _).
    change (fun a b => Transaction.createdAt b - Transaction.createdAt a)
      with (descending Transaction.createdAt).
    assert (Hperm : Permutation (sort_by (descending Transaction.createdAt) l) l)
      by apply sort_by_perm.
    split; auto.
    apply descending_strict; [|apply sort_descending].
    apply Permutation_NoDup with (l := map Transaction.createdAt l).
    + apply Permutation_map. now symmetry.
    + now apply NoDup_map_filter.
  - eexists. split; [run; reflexivity|].
    change (fun a b => Reminder.dueDate a - Reminder.dueDate b)
      with (ascending Reminder.dueDate).
    split; [apply sort_ascending | apply sort_by_perm].
Qed.

Lemma listing_order_witness :
  NoDup (map Transaction.createdAt
           (JsMap.values (transactions Sample.busy))) /\
  exists l,
    getTransactions (Some "acc-main") None (Some 1700000001000) None
      Sample.busy = (Resolved l, Sample.busy) /\
    StronglySorted
      (fun a b => Transaction.createdAt b < Transaction.createdAt a) l /\
    Permutation l
      (filter (selected (Some "acc-main") None (Some 1700000001000) None)
         (JsMap.values (transactions Sample.busy))).
Proof.
  assert (H : NoDup (map Transaction.createdAt
                       (JsMap.values (transactions Sample.busy)))).
  { vm_compute. constructor; [|constructor; [|constructor]].
    - intros [H|[]]. discriminate H.
    - intros []. }
  split; [exact H|].
  exact (proj1 (listing_order Sample.busy) (Some "acc-main") None
           (Some 1700000001000) None H).
Defined.

(** The newest transaction comes first. *)
Example getTransactions_busy :
  fst (getTransactions None None None None Sample.busy) =
  Resolved
    [Transaction.mk "txn-2" "acc-main" income (Fixed2 10) "Interest"
       otherCategory 1700000002000;
     Transaction.mk "txn-1" "acc-main" expense (Fixed2 5000) "Lunch" food
       1700000001000].
Proof. vm_compute. reflexivity. Qed.

(** ** The seed *)

(** C7.  A new store, whose two account ids are distinct, holds exactly
    the two seed accounts, "Main Account" of type [main] with balance
    2450.00 and "Savings Account" of type [savings] with balance 8750.00,
    in this order, and no transaction, debt, reminder or chat message. *)
Theorem fresh_store_seed id1 id2 now1 now2 :
  id1 <> id2 ->
  fst (getAccounts (newMemStorage id1 id2 now1 now2)) =
    Resolved
      [Account.mk id1 "Main Account" main (Fixed2 245000) now1;
       Account.mk id2 "Savings Account" savings (Fixed2 875000) now2] /\
  JsMap.values (transactions (newMemStorage id1 id2 now1 now2)) = [] /\
  JsMap.values (debts (newMemStorage id1 id2 now1 now2)) = [] /\
  JsMap.values (reminders (newMemStorage id1 id2 now1 now2)) = [] /\
  JsMap.values (chatMessages (newMemStorage id1 id2 now1 now2)) = [].
Proof.
  intros Hne. unfold newMemStorage, initializeDefaults. run.
  apply not_eq_sym in Hne. apply String.eqb_neq in Hne. rewrite Hne.
  simpl. auto.
Qed.

Lemma fresh_store_seed_witness :
  "acc-main" <> "acc-savings" /\
  fst (getAccounts Sample.fresh) =
    Resolved
      [Account.mk "acc-main" "Main Account" main (Fixed2 245000)
         1700000000000;
       Account.mk "acc-savings" "Savings Account" savings (Fixed2 875000)
         1700000000000].
Proof.
  assert (H : "acc-main" <> "acc-savings") by discriminate.
  split; [exact H|].
  exact (proj1 (fresh_store_seed "acc-main" "acc-savings" 1700000000000
                  1700000000000 H)).
Defined.

(** ** Debts *)

(** C9.  [createDebt] resolves with a debt whose [settled] is [false],
    whatever the payload carries, [settled] included, and that debt is the
    one stored under the new id. *)
Theorem createDebt_unsettled this id now ins :
  exists debt,
    fst (createDebt id now ins this) = Resolved debt /\
    Debt.settled debt = false /\
    JsMap.get id (debts (snd (createDebt id now ins this))) = Some debt /\
    Debt.id debt = id /\
    Debt.friendName debt = InsertDebt.friendName ins /\
    Debt.type debt = InsertDebt.type ins /\
    Debt.amount debt = InsertDebt.amount ins /\
    Debt.description debt = InsertDebt.description ins /\
    Debt.createdAt debt = now.
Proof.
  eexists. split; [run; reflexivity|]. simpl.
  split; [now destruct (InsertDebt.extraSettled ins)|].
  split; [apply JsMapFacts.get_set_same|]. auto 10.
Qed.

(** A payload that says [settled: true] is stored unsettled. *)
Example createDebt_ignores_settled :
  InsertDebt.extraSettled Sample.loan = Some true /\
  option_map Debt.settled (JsMap.get "debt-1" (debts Sample.busy)) =
    Some false.
Proof. split; vm_compute; reflexivity. Qed.

Lemma merged_or_else {A} (named : option A) (previous : A) :
  merged named previous (or_else named previous).
Proof. now destruct named. Qed.

Lemma assign_debt_updated debt updates :
  debt_updated updates debt (assign_debt debt updates).
Proof. unfold debt_updated, assign_debt; simpl. auto 10 using @merged_or_else. Qed.

Lemma assign_reminder_updated reminder updates :
  reminder_updated updates reminder (assign_reminder reminder updates).
Proof.
  unfold reminder_updated, assign_reminder; simpl.
  auto 10 using @merged_or_else.
Qed.

(** C10.  [updateDebt] and [updateReminder] on a stored id resolve and
    change that one entity in the properties the payload names, which take
    the payload's values, and in nothing else: its other properties keep
    their values, every other entry of the map is as before and in the
    same place, and the other maps, so every account balance, are as
    before. *)
Theorem update_frame this id :
  (forall debt updates,
     JsMap.get id (debts this) = Some debt ->
     fst (updateDebt id updates this) = Resolved tt /\
     (exists debt',
        JsMap.get id (debts (snd (updateDebt id updates this))) = Some debt' /\
        debt_updated updates debt debt') /\
     (forall k, k <> id ->
        JsMap.get k (debts (snd (updateDebt id updates this))) =
        JsMap.get k (debts this)) /\
     JsMap.keys (debts (snd (updateDebt id updates this))) =
       JsMap.keys (debts this) /\
     accounts (snd (updateDebt id updates this)) = accounts this /\
     (forall k, balanceOf k (snd (updateDebt id updates this)) =
                balanceOf k this) /\
     transactions (snd (updateDebt id updates this)) = transactions this /\
     reminders (snd (updateDebt id updates this)) = reminders this /\
     chatMessages (snd (updateDebt id updates this)) = chatMessages this) /\
  (forall reminder updates,
     JsMap.get id (reminders this) = Some reminder ->
     fst (updateReminder id updates this) = Resolved tt /\
     (exists reminder',
        JsMap.get id (reminders (snd (updateReminder id updates this))) =
          Some reminder' /\
        reminder_updated updates reminder reminder') /\
     (forall k, k <> id ->
        JsMap.get k (reminders (snd (updateReminder id updates this))) =
        JsMap.get k (reminders this)) /\
     JsMap.keys (reminders (snd (updateReminder id updates this))) =
       JsMap.keys (reminders this) /\
     accounts (snd (updateReminder id updates this)) = accounts this /\
     (forall k, balanceOf k (snd (updateReminder id updates this)) =
                balanceOf k this) /\
     transactions (snd (updateReminder id updates this)) = transactions this /\
     debts (snd (updateReminder id updates this)) = debts this /\
     chatMessages (snd (updateReminder id updates this)) = chatMessages this).
Proof.
  split.
  - intros debt updates Hget. unfold balanceOf. run. rewrite Hget. simpl.
    split; [reflexivity|]. split.
    { eexists. split; [apply JsMapFacts.get_set_same|].
      apply assign_debt_updated. }
    split; [intros k Hk; now apply JsMapFacts.get_set_other|].
    split; [now apply JsMapFacts.keys_set_present with debt|]. auto 10.
  - intros reminder updates Hget. unfold balanceOf. run. rewrite Hget. simpl.
    split; [reflexivity|]. split.
    { eexists. split; [apply JsMapFacts.get_set_same|].
      apply assign_reminder_updated. }
    split; [intros k Hk; now apply JsMapFacts.get_set_other|].
    split; [now apply JsMapFacts.keys_set_present with reminder|]. auto 10.
Qed.

Lemma update_frame_witness :
  JsMap.get "debt-1" (debts Sample.busy) =
    Some (Debt.mk "debt-1" "Asha" owe (Fixed2 12050) "Movie tickets" false
            1700000003000) /\
  JsMap.get "rem-1" (reminders Sample.busy) =
    Some (Reminder.mk "rem-1" "Rent" None (Fixed2 800000) 1700500000000
            pending true 1700000004000) /\
  accounts (snd (updateDebt "debt-1" Sample.settle Sample.busy)) =
    accounts Sample.busy /\
  accounts (snd (updateReminder "rem-1" Sample.snooze Sample.busy)) =
    accounts Sample.busy.
Proof.
  assert (Hd : JsMap.get "debt-1" (debts Sample.busy) =
               Some (Debt.mk "debt-1" "Asha" owe (Fixed2 12050)
                       "Movie tickets" false 1700000003000))
    by (vm_compute; reflexivity).
  assert (Hr : JsMap.get "rem-1" (reminders Sample.busy) =
               Some (Reminder.mk "rem-1" "Rent" None (Fixed2 800000)
                       1700500000000 pending true 1700000004000))
    by (vm_compute; reflexivity).
  split; [exact Hd|]. split; [exact Hr|]. split.
  - pose proof (proj1 (update_frame Sample.busy "debt-1") _ Sample.settle Hd)
      as H.
    exact (proj1 (proj2 (proj2 (proj2 (proj2 H))))).
  - pose proof (proj2 (update_frame Sample.busy "rem-1") _ Sample.snooze Hr)
      as H.
    exact (proj1 (proj2 (proj2 (proj2 (proj2 H))))).
Defined.

(** Settling the sample debt changes [settled] and nothing else of it. *)
Example updateDebt_settle :
  JsMap.get "debt-1"
    (debts (snd (updateDebt "debt-1" Sample.settle Sample.busy))) =
  Some (Debt.mk "debt-1" "Asha" owe (Fixed2 12050) "Movie tickets" true
          1700000003000).
Proof. vm_compute. reflexivity. Qed.

(** ** Net debt *)

(** The debt operations keep the keys of the debt map distinct, as they are
    in a new store. *)
Lemma debts_keys_distinct this :
  NoDup (JsMap.keys (debts this)) ->
  (forall id now ins,
     NoDup (JsMap.keys (debts (snd (createDebt id now ins this))))) /\
  (forall id updates,
     NoDup (JsMap.keys (debts (snd (updateDebt id updates this))))) /\
  (forall id, NoDup (JsMap.keys (debts (snd (deleteDebt id this))))).
Proof.
  intros Hnd. repeat split; intros; run.
  - now apply JsMapFacts.set_NoDup.
  - destruct (JsMap.get id (debts this)); simpl; auto.
    now apply JsMapFacts.set_NoDup.
  - now apply JsMapFacts.delete_NoDup.
Qed.

Lemma fold_unsettled_sum ty sum l :
  fold_left (fun sum d => Float.add sum (parseFloat (Debt.amount d)))
    (filter (fun d => DebtType_eqb (Debt.type d) ty && negb (Debt.settled d)) l)
    sum =
  unsettled_sum ty sum l.
Proof.
  revert sum. induction l as [|d r IH]; intros sum; simpl; auto.
  destruct (Debt.settled d); simpl.
  - rewrite andb_false_r. apply IH.
  - rewrite andb_true_r. destruct (DebtType_eqb (Debt.type d) ty); simpl; apply IH.
Qed.

(** A settled debt counts for nothing in either total, wherever it stands
    in the list. *)
Lemma totals_skip_settled pre d post :
  Debt.settled d = true ->
  totalOwed (pre ++ d :: post) = totalOwed (pre ++ post) /\
  totalOwedToUser (pre ++ d :: post) = totalOwedToUser (pre ++ post).
Proof.
  intros Hd. unfold totalOwed, totalOwedToUser.
  rewrite !filter_app. simpl. rewrite Hd, !andb_false_r. auto.
Qed.

(** The totals the route computes after a debt is settled are those it
    computes with that debt deleted. *)
Lemma netDebt_after_settling this id debt updates :
  NoDup (JsMap.keys (debts this)) ->
  JsMap.get id (debts this) = Some debt ->
  PartialDebt.settled updates = Some true ->
  fst (netDebt (snd (updateDebt id updates this))) =
  fst (netDebt (snd (deleteDebt id this))).
Proof.
  intros Hnd Hget Hset.
  destruct (JsMapFacts.values_split id debt (debts this) Hnd Hget)
    as (pre & post & Hvals & Hupd & Hdel).
  run. rewrite Hget. simpl. rewrite Hupd, Hdel.
  change (fun a b => Debt.createdAt b - Debt.createdAt a)
    with (descending Debt.createdAt).
  unfold totalOwed, totalOwedToUser, sum_amounts.
  rewrite !filter_sort_descending, !filter_app. simpl.
  rewrite Hset. simpl. rewrite !andb_false_r. reflexivity.
Qed.

(** C8.  The two totals of the summary are sums over the stored unsettled
    debts only.  The debts [getDebts] lists are exactly the stored ones,
    and over that list [totalOwed] adds the amounts of the debts of type
    [owe] that are not settled and [totalOwedToUser] those of type [owed],
    in the order of the list and with JavaScript number addition.  A
    settled debt counts for nothing in either total, and once [updateDebt]
    has set [settled] to [true] on a stored debt both totals are what they
    would be had the debt been deleted, whether or not it counted
    before. *)
Theorem netDebt_unsettled_only this :
  (forall listed,
     fst (getDebts this) = Resolved listed ->
     Permutation listed (JsMap.values (debts this)) /\
     fst (netDebt this) =
       Resolved (unsettled_sum owe Float.zero listed,
                 unsettled_sum owed Float.zero listed)) /\
  (forall pre d post,
     Debt.settled d = true ->
     totalOwed (pre ++ d :: post) = totalOwed (pre ++ post) /\
     totalOwedToUser (pre ++ d :: post) = totalOwedToUser (pre ++ post)) /\
  (forall id debt updates,
     NoDup (JsMap.keys (debts this)) ->
     JsMap.get id (debts this) = Some debt ->
     PartialDebt.settled updates = Some true ->
     fst (netDebt (snd (updateDebt id updates this))) =
     fst (netDebt (snd (deleteDebt id this)))).
Proof.
  split; [|split].
  - intros listed Hlisted.
    unfold getDebts, bind, read, ret in Hlisted. simpl in Hlisted.
    injection Hlisted as <-.
    split; [apply sort_by_perm|].
    run. unfold totalOwed, totalOwedToUser, sum_amounts.
    now rewrite !fold_unsettled_sum.
  - apply totals_skip_settled.
  - intros id debt updates. apply netDebt_after_settling.
Qed.

Lemma netDebt_unsettled_only_witness :
  fst (getDebts Sample.busy) =
    Resolved [Debt.mk "debt-1" "Asha" owe (Fixed2 12050) "Movie tickets" false
                1700000003000] /\
  fst (netDebt Sample.busy) =
    Resolved (unsettled_sum owe Float.zero
                [Debt.mk "debt-1" "Asha" owe (Fixed2 12050) "Movie tickets"
                   false 1700000003000],
              unsettled_sum owed Float.zero
                [Debt.mk "debt-1" "Asha" owe (Fixed2 12050) "Movie tickets"
                   false 1700000003000]) /\
  NoDup (JsMap.keys (debts Sample.busy)) /\
  JsMap.get "debt-1" (debts Sample.busy) =
    Some (Debt.mk "debt-1" "Asha" owe (Fixed2 12050) "Movie tickets" false
            1700000003000) /\
  PartialDebt.settled Sample.settle = Some true /\
  fst (netDebt (snd (updateDebt "debt-1" Sample.settle Sample.busy))) =
  fst (netDebt (snd (deleteDebt "debt-1" Sample.busy))).
Proof.
  assert (Hl : fst (getDebts Sample.busy) =
               Resolved [Debt.mk "debt-1" "Asha" owe (Fixed2 12050)
                           "Movie tickets" false 1700000003000])
    by (vm_compute; reflexivity).
  assert (Hnd : NoDup (JsMap.keys (debts Sample.busy))).
  { vm_compute. constructor; [intros []|constructor]. }
  assert (Hd : JsMap.get "debt-1" (debts Sample.busy) =
               Some (Debt.mk "debt-1" "Asha" owe (Fixed2 12050)
                       "Movie tickets" false 1700000003000))
    by (vm_compute; reflexivity).
  assert (Hs : PartialDebt.settled Sample.settle = Some true) by reflexivity.
  split; [exact Hl|].
  split; [exact (proj2 (proj1 (netDebt_unsettled_only Sample.busy) _ Hl))|].
  split; [exact Hnd|]. split; [exact Hd|]. split; [exact Hs|].
  exact (proj2 (proj2 (netDebt_unsettled_only Sample.busy))
           "debt-1" _ Sample.settle Hnd Hd Hs).
Defined.

(** The sample debt of 120.50 is owed before it is settled and not
    after. *)
Example netDebt_busy :
  fst (netDebt Sample.busy) =
    Resolved (parseFloat (Fixed2 12050), Float.zero) /\
  fst (netDebt (snd (updateDebt "debt-1" Sample.settle Sample.busy))) =
    Resolved (Float.zero, Float.zero).
Proof. split; vm_compute; reflexivity. Qed.


(** * Further properties *)

(** ** Accounts and transactions *)

(** What [createTransaction] returns and the store it leaves, in full. *)
Lemma createTransaction_run this id now ins :
  createTransaction id now ins this =
  (Resolved (newTransaction id now ins),
   mkMemStorage
     match JsMap.get (InsertTransaction.accountId ins) (accounts this) with
     | Some account =>
         JsMap.set (InsertTransaction.accountId ins)
           (set_balance (newBalance ins account) account) (accounts this)
     | None => accounts this
     end
     (JsMap.set id (newTransaction id now ins) (transactions this))
     (debts this) (reminders this) (chatMessages this)).
Proof.
  run. destruct (JsMap.get _ (accounts this)) eqn:E; simpl; rewrite ?E; reflexivity.
Qed.

(** X1.  [updateAccountBalance] resolves; on an id that is not stored it
    leaves the store as it was; on a stored id it replaces the balance of
    that account and nothing else: the account keeps its id, name, type
    and date, the other accounts and the order of the accounts are as
    before, and so are the other maps. *)
Theorem updateAccountBalance_effect this id balance :
  fst (updateAccountBalance id balance this) = Resolved tt /\
  (JsMap.get id (accounts this) = None ->
   snd (updateAccountBalance id balance this) = this) /\
  (forall account,
     JsMap.get id (accounts this) = Some account ->
     JsMap.get id (accounts (snd (updateAccountBalance id balance this))) =
       Some (Account.mk (Account.id account) (Account.name account)
               (Account.type account) balance (Account.createdAt account))) /\
  (forall k, k <> id ->
     JsMap.get k (accounts (snd (updateAccountBalance id balance this))) =
     JsMap.get k (accounts this)) /\
  JsMap.keys (accounts (snd (updateAccountBalance id balance this))) =
    JsMap.keys (accounts this) /\
  transactions (snd (updateAccountBalance id balance this)) =
    transactions this /\
  debts (snd (updateAccountBalance id balance this)) = debts this /\
  reminders (snd (updateAccountBalance id balance this)) = reminders this /\
  chatMessages (snd (updateAccountBalance id balance this)) =
    chatMessages this.
Proof.
  run. destruct (JsMap.get id (accounts this)) as [a|] eqn:E; simpl.
  - split; [reflexivity|]. split; [discriminate|]. split.
    { intros account [= <-]. apply JsMapFacts.get_set_same. }
    split; [intros k Hk; now apply JsMapFacts.get_set_other|].
    split; [now apply JsMapFacts.keys_set_present with a|]. auto.
  - split; [reflexivity|]. split; [reflexivity|]. split; [discriminate|].
    auto 10.
Qed.

Lemma updateAccountBalance_effect_witness :
  JsMap.get "acc-main" (accounts Sample.fresh) =
    Some (Account.mk "acc-main" "Main Account" main (Fixed2 245000)
            1700000000000) /\
  JsMap.get "acc-main"
    (accounts (snd (updateAccountBalance "acc-main" (Fixed2 100)
                      Sample.fresh))) =
    Some (Account.mk "acc-main" "Main Account" main (Fixed2 100)
            1700000000000) /\
  JsMap.get "acc-none" (accounts Sample.fresh) = None /\
  snd (updateAccountBalance "acc-none" (Fixed2 100) Sample.fresh) =
    Sample.fresh.
Proof.
  assert (H : JsMap.get "acc-main" (accounts Sample.fresh) =
              Some (Account.mk "acc-main" "Main Account" main (Fixed2 245000)
                      1700000000000)) by reflexivity.
  assert (N : JsMap.get "acc-none" (accounts Sample.fresh) = None)
    by reflexivity.
  split; [exact H|]. split.
  - exact (proj1 (proj2 (proj2
             (updateAccountBalance_effect Sample.fresh "acc-main" (Fixed2 100))))
             _ H).
  - split; [exact N|].
    exact (proj1 (proj2
             (updateAccountBalance_effect Sample.fresh "acc-none" (Fixed2 100)))
             N).
Defined.

(** X2.  [createAccount] resolves with the new account, which [getAccount]
    then finds under its id; the other accounts and the other maps are as
    before, and when the id is new the account comes last in
    [getAccounts]. *)
Theorem createAccount_lookup this id now ins :
  fst (createAccount id now ins this) =
    Resolved (Account.mk id (InsertAccount.name ins) (InsertAccount.type ins)
                (InsertAccount.balance ins) now) /\
  fst (getAccount id (snd (createAccount id now ins this))) =
    Resolved (Some (Account.mk id (InsertAccount.name ins)
                      (InsertAccount.type ins) (InsertAccount.balance ins)
                      now)) /\
  (forall k, k <> id ->
     fst (getAccount k (snd (createAccount id now ins this))) =
     fst (getAccount k this)) /\
  (JsMap.get id (accounts this) = None ->
   fst (getAccounts (snd (createAccount id now ins this))) =
     Resolved (JsMap.values (accounts this) ++
               [Account.mk id (InsertAccount.name ins) (InsertAccount.type ins)
                  (InsertAccount.balance ins) now])) /\
  transactions (snd (createAccount id now ins this)) = transactions this /\
  debts (snd (createAccount id now ins this)) = debts this /\
  reminders (snd (createAccount id now ins this)) = reminders this /\
  chatMessages (snd (createAccount id now ins this)) = chatMessages this.
Proof.
  unfold createAccount, getAccount. run.
  split; [reflexivity|]. split; [now rewrite JsMapFacts.get_set_same|].
  split; [intros k Hk; now rewrite JsMapFacts.get_set_other|].
  split; [|auto].
  intros Hnone. f_equal.
  induction (accounts this) as [|[k' v'] r IH]; simpl in *; auto.
  destruct (String.eqb id k'); [discriminate|]. simpl. now rewrite IH.
Qed.

Lemma createAccount_lookup_witness :
  JsMap.get "acc-cash" (accounts Sample.fresh) = None /\
  fst (getAccounts
         (snd (createAccount "acc-cash" 1700000005000
                 (InsertAccount.mk "Cash" other (Fixed2 0)) Sample.fresh))) =
    Resolved (JsMap.values (accounts Sample.fresh) ++
              [Account.mk "acc-cash" "Cash" other (Fixed2 0) 1700000005000]).
Proof.
  assert (N : JsMap.get "acc-cash" (accounts Sample.fresh) = None)
    by reflexivity.
  split; [exact N|].
  exact (proj1 (proj2 (proj2 (proj2
           (createAccount_lookup Sample.fresh "acc-cash" 1700000005000
              (InsertAccount.mk "Cash" other (Fixed2 0)))))) N).
Defined.

(** X3.  [createTransaction] resolves with the transaction it stored:
    [getTransaction] finds exactly that one under the new id.  The other
    transactions, the debts, the reminders and the chat messages are as
    before. *)
Theorem createTransaction_lookup this id now ins :
  exists transaction,
    fst (createTransaction id now ins this) = Resolved transaction /\
    fst (getTransaction id (snd (createTransaction id now ins this))) =
      Resolved (Some transaction) /\
    Transaction.id transaction = id /\
    Transaction.createdAt transaction = now /\
    Transaction.accountId transaction = InsertTransaction.accountId ins /\
    Transaction.type transaction = InsertTransaction.type ins /\
    Transaction.amount transaction = InsertTransaction.amount ins /\
    Transaction.description transaction = InsertTransaction.description ins /\
    Transaction.category transaction = InsertTransaction.category ins /\
    (forall k, k <> id ->
       fst (getTransaction k (snd (createTransaction id now ins this))) =
       fst (getTransaction k this)) /\
    debts (snd (createTransaction id now ins this)) = debts this /\
    reminders (snd (createTransaction id now ins this)) = reminders this /\
    chatMessages (snd (createTransaction id now ins this)) =
      chatMessages this.
Proof.
  exists (newTransaction id now ins).
  rewrite createTransaction_run. unfold getTransaction, read. simpl.
  split; [reflexivity|]. split; [now rewrite JsMapFacts.get_set_same|].
  repeat (split; [reflexivity|]).
  split; [intros k Hk; now rewrite JsMapFacts.get_set_other|]. auto.
Qed.

(** The accounts after [createTransaction], entry by entry. *)
Lemma createTransaction_get_account this id now ins k :
  JsMap.get k (accounts (snd (createTransaction id now ins this))) =
  match JsMap.get k (accounts this) with
  | Some account =>
      if String.eqb k (InsertTransaction.accountId ins)
      then Some (set_balance (newBalance ins account) account)
      else Some account
  | None => None
  end.
Proof.
  rewrite createTransaction_run. simpl.
  destruct (String.eqb k (InsertTransaction.accountId ins)) eqn:E.
  - apply String.eqb_eq in E. subst k.
    destruct (JsMap.get _ (accounts this)) as [a|] eqn:G.
    + apply JsMapFacts.get_set_same.
    + exact G.
  - apply String.eqb_neq in E.
    destruct (JsMap.get (InsertTransaction.accountId ins) (accounts this))
      as [a|] eqn:G.
    + rewrite JsMapFacts.get_set_other by assumption.
      now destruct (JsMap.get k (accounts this)).
    + now destruct (JsMap.get k (accounts this)).
Qed.

(** X4.  [createTransaction] changes nothing of the accounts but the
    balance of the account the transaction names: the accounts are the
    same ones in the same order, each keeps its id, name, type and date,
    and every account other than the named one keeps its balance. *)
Theorem createTransaction_account_frame this id now ins :
  JsMap.keys (accounts (snd (createTransaction id now ins this))) =
    JsMap.keys (accounts this) /\
  (forall k account,
     JsMap.get k (accounts this) = Some account ->
     exists account',
       JsMap.get k (accounts (snd (createTransaction id now ins this))) =
         Some account' /\
       Account.id account' = Account.id account /\
       Account.name account' = Account.name account /\
       Account.type account' = Account.type account /\
       Account.createdAt account' = Account.createdAt account /\
       (k <> InsertTransaction.accountId ins -> account' = account)) /\
  (forall k, k <> InsertTransaction.accountId ins ->
     balanceOf k (snd (createTransaction id now ins this)) = balanceOf k this).
Proof.
  split; [|split].
  - rewrite createTransaction_run. simpl.
    destruct (JsMap.get _ (accounts this)) as [a|] eqn:G; auto.
    now apply JsMapFacts.keys_set_present with a.
  - intros k account Hget.
    rewrite createTransaction_get_account, Hget.
    destruct (String.eqb k (InsertTransaction.accountId ins)) eqn:E.
    + apply String.eqb_eq in E. eexists. split; [reflexivity|]. simpl.
      repeat (split; [reflexivity|]). congruence.
    + eexists. split; [reflexivity|]. auto 10.
  - intros k Hk. unfold balanceOf.
    rewrite createTransaction_get_account.
    apply String.eqb_neq in Hk. rewrite Hk.
    now destruct (JsMap.get k (accounts this)).
Qed.

Lemma createTransaction_account_frame_witness :
  "acc-savings" <> InsertTransaction.accountId Sample.lunch /\
  balanceOf "acc-savings"
    (snd (createTransaction "txn-1" 1700000001000 Sample.lunch Sample.fresh)) =
  balanceOf "acc-savings" Sample.fresh.
Proof.
  assert (H : "acc-savings" <> InsertTransaction.accountId Sample.lunch)
    by discriminate.
  split; [exact H|].
  exact (proj2 (proj2 (createTransaction_account_frame Sample.fresh "txn-1"
                         1700000001000 Sample.lunch)) "acc-savings" H).
Defined.

(** The balance written for in-range two-decimal values is the decimal
    one. *)
Lemma newBalance_exact ins account B A :
  Account.balance account = Fixed2 B ->
  InsertTransaction.amount ins = Fixed2 A ->
  Z.abs B < 10 ^ 10 -> Z.abs A < 10 ^ 10 ->
  newBalance ins account =
  Fixed2 (match InsertTransaction.type ins with
          | income => B + A
          | expense => B - A
          end).
Proof.
  intros HB HA HBr HAr. unfold newBalance. rewrite HB, HA.
  destruct (FloatFacts.parseFloat_cents B HBr) as (ub & Hub & Hnb).
  destruct (FloatFacts.parseFloat_cents A HAr) as (ua & Hua & Hna).
  rewrite Hub, Hua.
  destruct (InsertTransaction.type ins); simpl TransactionType_eqb; cbv iota.
  - unfold Float.sub, Float.neg.
    replace (B - A) with (B + - A) by ring.
    apply FloatFacts.add_near_cents; auto.
    + now rewrite Z.abs_opp.
    + now apply FloatFacts.near_cents_opp.
  - now apply FloatFacts.add_near_cents.
Qed.

Lemma postAll_cons id now ins rest this :
  postAll ((id, now, ins) :: rest) this =
  postAll rest (snd (createTransaction id now ins this)).
Proof.
  simpl. unfold bind. now rewrite createTransaction_run.
Qed.

(** X5.  The ledger.  Posting a list of transactions leaves on an account
    its balance plus the incomes and minus the expenses posted against it,
    in exact decimal arithmetic, as long as the amounts and the running
    balance stay within [decimal(10, 2)]; transactions against other
    accounts do not count. *)
Theorem postAll_ledger entries : forall this k account B B',
  JsMap.get k (accounts this) = Some account ->
  Account.balance account = Fixed2 B ->
  Z.abs B < 10 ^ 10 ->
  ledger k B entries = Some B' ->
  fst (postAll entries this) = Resolved tt /\
  balanceOf k (snd (postAll entries this)) = Some (Fixed2 B').
Proof.
  induction entries as [|[[id now] ins] rest IH];
    intros this k account B B' Hget Hbal HB Hled; simpl in Hled.
  - injection Hled as <-. unfold balanceOf. simpl. rewrite Hget. simpl.
    now rewrite Hbal.
  - rewrite postAll_cons.
    pose proof (createTransaction_get_account this id now ins k) as Hk.
    rewrite Hget in Hk.
    destruct (String.eqb (InsertTransaction.accountId ins) k) eqn:E.
    + destruct (InsertTransaction.amount ins) as [A|] eqn:HA;
        [|discriminate Hled].
      cbv zeta in Hled.
      match type of Hled with
      | (if ?c then _ else _) = _ => destruct c eqn:Hr; [|discriminate Hled]
      end.
      apply andb_true_iff in Hr. destruct Hr as [HAr HBr'].
      apply Z.ltb_lt in HAr. apply Z.ltb_lt in HBr'.
      rewrite String.eqb_sym, E in Hk.
      rewrite (newBalance_exact ins account B A Hbal HA HB HAr) in Hk.
      exact (IH _ k _ _ B' Hk eq_refl HBr' Hled).
    + rewrite String.eqb_sym, E in Hk.
      exact (IH _ k _ _ B' Hk Hbal HB Hled).
Qed.

Lemma postAll_ledger_witness :
  JsMap.get "acc-main" (accounts Sample.fresh) =
    Some (Account.mk "acc-main" "Main Account" main (Fixed2 245000)
            1700000000000) /\
  Z.abs 245000 < 10 ^ 10 /\
  ledger "acc-main" 245000
    [("txn-1", 1700000001000, Sample.lunch);
     ("txn-2", 1700000002000, Sample.interest);
     ("txn-3", 1700000003000, Sample.orphan)] = Some 240010 /\
  balanceOf "acc-main"
    (snd (postAll
            [("txn-1", 1700000001000, Sample.lunch);
             ("txn-2", 1700000002000, Sample.interest);
             ("txn-3", 1700000003000, Sample.orphan)] Sample.fresh)) =
    Some (Fixed2 240010).
Proof.
  assert (H : JsMap.get "acc-main" (accounts Sample.fresh) =
              Some (Account.mk "acc-main" "Main Account" main (Fixed2 245000)
                      1700000000000)) by reflexivity.
  assert (HB : Z.abs 245000 < 10 ^ 10) by reflexivity.
  assert (HL : ledger "acc-main" 245000
                 [("txn-1", 1700000001000, Sample.lunch);
                  ("txn-2", 1700000002000, Sample.interest);
                  ("txn-3", 1700000003000, Sample.orphan)] = Some 240010)
    by reflexivity.
  split; [exact H|]. split; [exact HB|]. split; [exact HL|].
  exact (proj2 (postAll_ledger _ Sample.fresh "acc-main" _ 245000 240010
                  H eq_refl HB HL)).
Defined.


Lemma JsMap_delete_set_absent {V} k (v : V) m :
  JsMap.get k m = None -> JsMap.delete k (JsMap.set k v m) = m.
Proof.
  induction m as [|[k' v'] r IH]; simpl.
  - now rewrite String.eqb_refl.
  - destruct (String.eqb k k') eqn:E; [discriminate|].
    intros H. simpl. rewrite E. now rewrite IH.
Qed.

Lemma JsMap_set_set {V} k (v v' : V) m :
  JsMap.set k v' (JsMap.set k v m) = JsMap.set k v' m.
Proof.
  induction m as [|[k0 v0] r IH]; simpl.
  - now rewrite String.eqb_refl.
  - destruct (String.eqb k k0) eqn:E; simpl.
    + now rewrite String.eqb_refl.
    + now rewrite E, IH.
Qed.

(** X6.  Deleting a transaction right after it was created, under a new
    id, puts the transaction map back as it was, but not the account: for
    in-range two-decimal values and a non-zero amount the balance stays at
    [B + A] or [B - A] and differs from the balance [B] before. *)
Theorem create_delete_keeps_delta this id now ins account B A :
  JsMap.get id (transactions this) = None ->
  JsMap.get (InsertTransaction.accountId ins) (accounts this) = Some account ->
  Account.balance account = Fixed2 B ->
  InsertTransaction.amount ins = Fixed2 A ->
  Z.abs B < 10 ^ 10 ->
  Z.abs A < 10 ^ 10 ->
  A <> 0 ->
  transactions
    (snd ((createTransaction id now ins ;;; deleteTransaction id) this)) =
    transactions this /\
  balanceOf (InsertTransaction.accountId ins)
    (snd ((createTransaction id now ins ;;; deleteTransaction id) this)) =
    Some (Fixed2 (match InsertTransaction.type ins with
                  | income => B + A
                  | expense => B - A
                  end)) /\
  balanceOf (InsertTransaction.accountId ins)
    (snd ((createTransaction id now ins ;;; deleteTransaction id) this)) <>
  balanceOf (InsertTransaction.accountId ins) this.
Proof.
  intros Hnew Hacc HB HA HBr HAr Hnz.
  unfold bind. rewrite createTransaction_run. unfold balanceOf.
  unfold deleteTransaction, write. simpl.
  rewrite Hacc, JsMapFacts.get_set_same. simpl.
  rewrite (newBalance_exact ins account B A HB HA HBr HAr), HB.
  split; [now apply JsMap_delete_set_absent|]. split; [reflexivity|].
  intros [= H]. destruct (InsertTransaction.type ins); lia.
Qed.

Lemma create_delete_keeps_delta_witness :
  JsMap.get "txn-1" (transactions Sample.fresh) = None /\
  JsMap.get (InsertTransaction.accountId Sample.lunch)
    (accounts Sample.fresh) =
    Some (Account.mk "acc-main" "Main Account" main (Fixed2 245000)
            1700000000000) /\
  Z.abs 245000 < 10 ^ 10 /\ Z.abs 5000 < 10 ^ 10 /\ 5000 <> 0 /\
  balanceOf "acc-main"
    (snd ((createTransaction "txn-1" 1700000001000 Sample.lunch ;;;
           deleteTransaction "txn-1") Sample.fresh)) =
    Some (Fixed2 240000).
Proof.
  assert (N : JsMap.get "txn-1" (transactions Sample.fresh) = None)
    by reflexivity.
  assert (H : JsMap.get (InsertTransaction.accountId Sample.lunch)
                (accounts Sample.fresh) =
              Some (Account.mk "acc-main" "Main Account" main (Fixed2 245000)
                      1700000000000)) by reflexivity.
  assert (HB : Z.abs 245000 < 10 ^ 10) by reflexivity.
  assert (HA : Z.abs 5000 < 10 ^ 10) by reflexivity.
  assert (HZ : 5000 <> 0) by discriminate.
  split; [exact N|]. split; [exact H|]. split; [exact HB|].
  split; [exact HA|]. split; [exact HZ|].
  exact (proj1 (proj2 (create_delete_keeps_delta Sample.fresh "txn-1"
                         1700000001000 Sample.lunch _ 245000 5000
                         N H eq_refl eq_refl HB HA HZ))).
Defined.

(** ** Debts and reminders *)

(** X7.  Creating a debt or a reminder under a new id and deleting it
    again leaves the store exactly as it was. *)
Theorem create_delete_restores this id now :
  (forall ins,
     JsMap.get id (debts this) = None ->
     snd ((createDebt id now ins ;;; deleteDebt id) this) = this) /\
  (forall ins,
     JsMap.get id (reminders this) = None ->
     snd ((createReminder id now ins ;;; deleteReminder id) this) = this).
Proof.
  destruct this as [acc txn dbt rem chat].
  split; intros ins Hnew; simpl in Hnew;
    unfold createReminder; run; unfold with_debts, with_reminders; simpl;
    now rewrite JsMap_delete_set_absent.
Qed.

Lemma create_delete_restores_witness :
  JsMap.get "debt-2" (debts Sample.busy) = None /\
  snd ((createDebt "debt-2" 1700000006000 Sample.loan ;;;
        deleteDebt "debt-2") Sample.busy) = Sample.busy.
Proof.
  assert (N : JsMap.get "debt-2" (debts Sample.busy) = None)
    by (vm_compute; reflexivity).
  split; [exact N|].
  exact (proj1 (create_delete_restores Sample.busy "debt-2" 1700000006000)
           Sample.loan N).
Defined.

Lemma assign_debt_twice debt updates :
  assign_debt (assign_debt debt updates) updates = assign_debt debt updates.
Proof.
  destruct updates as [i f t a d s c]. unfold assign_debt. simpl.
  destruct i, f, t, a, d, s, c; reflexivity.
Qed.

Lemma assign_reminder_twice reminder updates :
  assign_reminder (assign_reminder reminder updates) updates =
  assign_reminder reminder updates.
Proof.
  destruct updates as [i t d a du s r c]. unfold assign_reminder. simpl.
  destruct i, t, d, a, du, s, r, c; reflexivity.
Qed.

(** X8.  Updating is idempotent: [updateDebt] or [updateReminder] applied a
    second time with the same payload leaves the store as the first
    application left it, whether or not the id is stored. *)
Theorem update_twice this id :
  (forall updates,
     snd ((updateDebt id updates ;;; updateDebt id updates) this) =
     snd (updateDebt id updates this)) /\
  (forall updates,
     snd ((updateReminder id updates ;;; updateReminder id updates) this) =
     snd (updateReminder id updates this)).
Proof.
  destruct this as [acc txn dbt rem chat].
  split; intros updates; run; unfold with_debts, with_reminders; simpl.
  - destruct (JsMap.get id dbt) as [d|] eqn:E; simpl.
    + rewrite JsMapFacts.get_set_same. simpl.
      now rewrite assign_debt_twice, JsMap_set_set.
    + now rewrite E.
  - destruct (JsMap.get id rem) as [r|] eqn:E; simpl.
    + rewrite JsMapFacts.get_set_same. simpl.
      now rewrite assign_reminder_twice, JsMap_set_set.
    + now rewrite E.
Qed.

(** ** Listings *)

Lemma sort_by_sorted_same {A} (cmp : A -> A -> Z) l :
  StronglySorted (before cmp) l -> sort_by cmp l = l.
Proof.
  induction 1 as [|x r Hr IH Hx]; simpl; auto.
  rewrite IH. now apply insert_by_head.
Qed.

Lemma insert_by_last {A} (cmp : A -> A -> Z) x l :
  Forall (fun y => 0 < cmp x y) l -> insert_by cmp x l = l ++ [x].
Proof.
  induction 1 as [|y r Hy Hr IH]; simpl; auto.
  destruct (cmp x y <=? 0) eqn:E; [apply Z.leb_le in E; lia|].
  now rewrite IH.
Qed.

Lemma sort_descending_rev {A} (key : A -> Z) l :
  StronglySorted (fun a b => key a < key b) l ->
  sort_by (descending key) l = rev l.
Proof.
  induction 1 as [|x r Hr IH Hx]; simpl; auto.
  rewrite IH. apply insert_by_last.
  apply Forall_forall. intros y Hy. apply in_rev in Hy.
  rewrite Forall_forall in Hx. specialize (Hx y Hy).
  unfold descending. lia.
Qed.

(** X9.  Whenever [getDebts] resolves, it has not changed the store and
    its result is exactly the stored debts, newest first: a permutation of
    them in descending order of [createdAt], strictly descending when the
    dates are pairwise distinct.  (The comparator calls [getTime()] on
    each [createdAt]; the statement says nothing of a store in which one
    is not a [Date], where the call throws.) *)
Theorem getDebts_order this l this' :
  getDebts this = (Resolved l, this') ->
  this' = this /\
  Permutation l (JsMap.values (debts this)) /\
  StronglySorted (fun a b => Debt.createdAt b <= Debt.createdAt a) l /\
  (NoDup (map Debt.createdAt (JsMap.values (debts this))) ->
   StronglySorted (fun a b => Debt.createdAt b < Debt.createdAt a) l).
Proof.
  intros Hrun. unfold getDebts, bind, read, ret in Hrun. simpl in Hrun.
  injection Hrun as <- <-.
  change (fun a b => Debt.createdAt b - Debt.createdAt a)
    with (descending Debt.createdAt).
  assert (Hperm : Permutation
                    (sort_by (descending Debt.createdAt)
                       (JsMap.values (debts this)))
                    (JsMap.values (debts this))) by apply sort_by_perm.
  split; [reflexivity|]. split; [exact Hperm|].
  split; [apply sort_descending|].
  intros Hnd. apply descending_strict; [|apply sort_descending].
  apply Permutation_NoDup with (l := map Debt.createdAt (JsMap.values (debts this)));
    auto.
  apply Permutation_map. now symmetry.
Qed.

(** X10.  [getChatMessages] resolves, without changing the store, with all
    the stored messages in ascending order of [createdAt]; when the
    messages were stored in chronological order, ties included, it lists
    them in the order in which they were stored. *)
Theorem getChatMessages_order this :
  exists l,
    getChatMessages this = (Resolved l, this) /\
    Permutation l (JsMap.values (chatMessages this)) /\
    StronglySorted
      (fun a b => ChatMessage.createdAt a <= ChatMessage.createdAt b) l /\
    (StronglySorted
       (fun a b => ChatMessage.createdAt a <= ChatMessage.createdAt b)
       (JsMap.values (chatMessages this)) ->
     l = JsMap.values (chatMessages this)).
Proof.
  eexists. split; [unfold getChatMessages; run; reflexivity|].
  change (fun a b => ChatMessage.createdAt a - ChatMessage.createdAt b)
    with (ascending ChatMessage.createdAt).
  split; [apply sort_by_perm|]. split; [apply sort_ascending|].
  intros Hs. apply sort_by_sorted_same.
  eapply StronglySorted_weaken; [|exact Hs].
  unfold before, ascending. intros a b H. lia.
Qed.

(** X11.  The filtered listing is the full listing filtered: what
    [getTransactions] resolves with, for any arguments, is what it
    resolves with for none, restricted to the selected transactions and
    in the same relative order. *)
Theorem getTransactions_filter_of_all this accountId category startDate endDate :
  exists all,
    fst (getTransactions None None None None this) = Resolved all /\
    fst (getTransactions accountId category startDate endDate this) =
      Resolved (filter (selected accountId category startDate endDate) all).
Proof.
  eexists. split; [run; reflexivity|]. run.
  rewrite getTransactions_filters.
  change (fun a b => Transaction.createdAt b - Transaction.createdAt a)
    with (descending Transaction.createdAt).
  now rewrite filter_sort_descending.
Qed.

(** X12.  When each stored transaction, or debt, is newer than the ones
    stored before it, the full listing is the reverse of the order of
    storing. *)
Theorem newest_first_is_reverse_storing this :
  (StronglySorted
     (fun a b => Transaction.createdAt a < Transaction.createdAt b)
     (JsMap.values (transactions this)) ->
   fst (getTransactions None None None None this) =
     Resolved (rev (JsMap.values (transactions this)))) /\
  (StronglySorted (fun a b => Debt.createdAt a < Debt.createdAt b)
     (JsMap.values (debts this)) ->
   fst (getDebts this) = Resolved (rev (JsMap.values (debts this)))).
Proof.
  split; intros Hs; run; f_equal.
  - change (fun a b => Transaction.createdAt b - Transaction.createdAt a)
      with (descending Transaction.createdAt).
    now apply sort_descending_rev.
  - change (fun a b => Debt.createdAt b - Debt.createdAt a)
      with (descending Debt.createdAt).
    now apply sort_descending_rev.
Qed.

Lemma newest_first_is_reverse_storing_witness :
  StronglySorted
    (fun a b => Transaction.createdAt a < Transaction.createdAt b)
    (JsMap.values (transactions Sample.busy)) /\
  fst (getTransactions None None None None Sample.busy) =
    Resolved (rev (JsMap.values (transactions Sample.busy))).
Proof.
  assert (H : StronglySorted
                (fun a b => Transaction.createdAt a < Transaction.createdAt b)
                (JsMap.values (transactions Sample.busy))).
  { vm_compute. repeat constructor. }
  split; [exact H|].
  exact (proj1 (newest_first_is_reverse_storing Sample.busy) H).
Defined.

Lemma getDebts_order_witness :
  getDebts Scenario.store =
    (Resolved
       [Debt.mk "debt-2" "Ravi" owed (Fixed2 30000) "Bus pass" true
          1700000006000;
        Debt.mk "debt-1" "Asha" owe (Fixed2 12050) "Movie tickets" false
          1700000003000],
     Scenario.store) /\
  NoDup (map Debt.createdAt (JsMap.values (debts Scenario.store))) /\
  StronglySorted (fun a b => Debt.createdAt b < Debt.createdAt a)
    [Debt.mk "debt-2" "Ravi" owed (Fixed2 30000) "Bus pass" true
       1700000006000;
     Debt.mk "debt-1" "Asha" owe (Fixed2 12050) "Movie tickets" false
       1700000003000].
Proof.
  assert (Hrun : getDebts Scenario.store =
                 (Resolved
                    [Debt.mk "debt-2" "Ravi" owed (Fixed2 30000) "Bus pass"
                       true 1700000006000;
                     Debt.mk "debt-1" "Asha" owe (Fixed2 12050)
                       "Movie tickets" false 1700000003000],
                  Scenario.store)) by (vm_compute; reflexivity).
  assert (H : NoDup (map Debt.createdAt (JsMap.values (debts Scenario.store)))).
  { vm_compute. constructor; [|constructor; [|constructor]].
    - intros [H|[]]. discriminate H.
    - intros []. }
  split; [exact Hrun|]. split; [exact H|].
  exact (proj2 (proj2 (proj2 (getDebts_order _ _ _ Hrun))) H).
Defined.

Lemma getChatMessages_order_witness :
  StronglySorted
    (fun a b => ChatMessage.createdAt a <= ChatMessage.createdAt b)
    (JsMap.values (chatMessages Scenario.store)) /\
  exists l,
    getChatMessages Scenario.store = (Resolved l, Scenario.store) /\
    l = JsMap.values (chatMessages Scenario.store).
Proof.
  assert (H : StronglySorted
                (fun a b => ChatMessage.createdAt a <= ChatMessage.createdAt b)
                (JsMap.values (chatMessages Scenario.store))).
  { vm_compute. repeat constructor; discriminate. }
  split; [exact H|].
  destruct (getChatMessages_order Scenario.store) as (l & Hrun & _ & _ & Hsame).
  exists l. split; [exact Hrun|]. exact (Hsame H).
Defined.

(** ** An invariant of the store *)

Lemma keyed_set {V} (id : V -> string) k v m :
  id v = k -> keyed id m -> keyed id (JsMap.set k v m).
Proof.
  intros Hv Hm k' v' Hget.
  destruct (String.eqb k' k) eqn:E.
  - apply String.eqb_eq in E. subst k'.
    rewrite JsMapFacts.get_set_same in Hget. congruence.
  - apply String.eqb_neq in E.
    rewrite JsMapFacts.get_set_other in Hget by assumption. now apply Hm.
Qed.

Lemma keyed_delete {V} (id : V -> string) k m :
  keyed id m -> keyed id (JsMap.delete k m).
Proof.
  intros Hm k' v' Hget.
  destruct (String.eqb k' k) eqn:E.
  - apply String.eqb_eq in E. subst k'.
    rewrite JsMapFacts.get_delete_same in Hget. discriminate.
  - apply String.eqb_neq in E.
    rewrite JsMapFacts.get_delete_other in Hget by assumption. now apply Hm.
Qed.

Lemma consistent_new id1 id2 now1 now2 :
  id1 <> id2 -> consistent (newMemStorage id1 id2 now1 now2).
Proof.
  intros Hne. unfold consistent, newMemStorage, initializeDefaults. run.
  assert (E : String.eqb id2 id1 = false)
    by (apply String.eqb_neq; congruence).
  rewrite E. simpl.
  repeat split; try constructor; try (intros k v H; discriminate H).
  - intros [H|[]]. congruence.
  - constructor; [intros []|constructor].
  - intros k v. unfold JsMap.get.
    destruct (String.eqb k id1) eqn:E1; [apply String.eqb_eq in E1|].
    + intros [= <-]. now subst.
    + destruct (String.eqb k id2) eqn:E2; [apply String.eqb_eq in E2|].
      * intros [= <-]. now subst.
      * discriminate.
Qed.

Lemma consistent_perform this op :
  consistent this -> consistent (perform this op).
Proof.
  intros (Na & Nt & Nd & Nr & Nc & Ka & Kt & Kc).
  destruct op; unfold perform, consistent;
    try rewrite createTransaction_run;
    unfold createAccount, createReminder, createChatMessage,
      clearChatMessages; run;
    repeat match goal with
           | |- context [match JsMap.get ?k ?m with _ => _ end] =>
               let E := fresh "E" in
               destruct (JsMap.get k m) eqn:E; simpl
           end;
    repeat split;
    auto using JsMapFacts.set_NoDup, JsMapFacts.delete_NoDup,
      @keyed_delete, NoDup_nil;
    try (apply keyed_set; auto; fail);
    try (intros k v H; discriminate H).
  - apply keyed_set; auto. simpl. now apply Ka.
  - apply keyed_set; auto. simpl. now apply Ka.
Qed.

(** X13.  In every store reached from a new one, whose two account ids
    are distinct, by any sequence of the mutating methods with any
    arguments, the keys of each map are distinct and every account,
    transaction and chat message is stored under its own [id]. *)
Theorem reachable_consistent ops : forall id1 id2 now1 now2,
  id1 <> id2 ->
  consistent (fold_left perform ops (newMemStorage id1 id2 now1 now2)).
Proof.
  intros id1 id2 now1 now2 Hne.
  assert (H : consistent (newMemStorage id1 id2 now1 now2))
    by now apply consistent_new.
  revert H. generalize (newMemStorage id1 id2 now1 now2).
  induction ops as [|op rest IH]; intros this H; simpl; auto.
  apply IH. now apply consistent_perform.
Qed.

Lemma reachable_consistent_witness :
  "acc-main" <> "acc-savings" /\
  consistent
    (fold_left perform
       [CreateTransaction "txn-1" 1700000001000 Sample.lunch;
        CreateTransaction "txn-1" 1700000002000 Sample.interest;
        UpdateDebt "debt-1" Sample.settle;
        DeleteTransaction "txn-1"]
       (newMemStorage "acc-main" "acc-savings" 1700000000000 1700000000000)).
Proof.
  assert (H : "acc-main" <> "acc-savings") by discriminate.
  split; [exact H|].
  exact (reachable_consistent _ "acc-main" "acc-savings" 1700000000000
           1700000000000 H).
Defined.

(** X14.  A payload that names [id] changes the [id] property of the debt
    or reminder but not the key it is stored under: the entity is still
    found under the old id, where it now shows the new one, and nothing is
    stored or changed under the new id. *)
Theorem update_id_keeps_key this k j :
  j <> k ->
  (forall debt updates,
     JsMap.get k (debts this) = Some debt ->
     PartialDebt.id updates = Some j ->
     (exists debt',
        fst (getDebt k (snd (updateDebt k updates this))) =
          Resolved (Some debt') /\
        Debt.id debt' = j) /\
     fst (getDebt j (snd (updateDebt k updates this))) =
       fst (getDebt j this)) /\
  (forall reminder updates,
     JsMap.get k (reminders this) = Some reminder ->
     PartialReminder.id updates = Some j ->
     (exists reminder',
        fst (getReminder k (snd (updateReminder k updates this))) =
          Resolved (Some reminder') /\
        Reminder.id reminder' = j) /\
     fst (getReminder j (snd (updateReminder k updates this))) =
       fst (getReminder j this)).
Proof.
  intros Hne. split.
  - intros debt updates Hget Hid. unfold getDebt. run. rewrite Hget. simpl.
    split.
    + eexists. split; [now rewrite JsMapFacts.get_set_same|].
      simpl. now rewrite Hid.
    + now rewrite JsMapFacts.get_set_other.
  - intros reminder updates Hget Hid. unfold getReminder. run.
    rewrite Hget. simpl. split.
    + eexists. split; [now rewrite JsMapFacts.get_set_same|].
      simpl. now rewrite Hid.
    + now rewrite JsMapFacts.get_set_other.
Qed.

Lemma update_id_keeps_key_witness :
  "debt-7" <> "debt-1" /\
  JsMap.get "debt-1" (debts Sample.busy) =
    Some (Debt.mk "debt-1" "Asha" owe (Fixed2 12050) "Movie tickets" false
            1700000003000) /\
  fst (getDebt "debt-7"
         (snd (updateDebt "debt-1"
                 (PartialDebt.mk (Some "debt-7") None None None None None None)
                 Sample.busy))) =
  fst (getDebt "debt-7" Sample.busy).
Proof.
  assert (Hne : "debt-7" <> "debt-1") by discriminate.
  assert (Hd : JsMap.get "debt-1" (debts Sample.busy) =
               Some (Debt.mk "debt-1" "Asha" owe (Fixed2 12050)
                       "Movie tickets" false 1700000003000))
    by (vm_compute; reflexivity).
  split; [exact Hne|]. split; [exact Hd|].
  exact (proj2 (proj1 (update_id_keeps_key Sample.busy "debt-1" "debt-7" Hne)
                  _ (PartialDebt.mk (Some "debt-7") None None None None None
                       None) Hd eq_refl)).
Defined.

(** ** The summary *)

Lemma StronglySorted_filter {A} (R : A -> A -> Prop) p l :
  StronglySorted R l -> StronglySorted R (filter p l).
Proof.
  induction 1 as [|x r Hr IH Hx]; simpl; [constructor|].
  destruct (p x); auto. constructor; auto.
  apply Forall_forall. intros y Hy. apply filter_In in Hy.
  rewrite Forall_forall in Hx. now apply Hx.
Qed.

(** In a sorted list the first [n] elements stand before all the others. *)
Lemma StronglySorted_firstn_skipn {A} (R : A -> A -> Prop) n : forall l,
  StronglySorted R l ->
  forall a b, In a (firstn n l) -> In b (skipn n l) -> R a b.
Proof.
  induction n as [|n IH]; intros l Hs a b Ha Hb; simpl in *; [tauto|].
  destruct l as [|x r]; simpl in *; [tauto|].
  inversion Hs as [|? ? Hr Hx]; subst.
  destruct Ha as [<-|Ha].
  - rewrite Forall_forall in Hx. apply Hx.
    rewrite <- (firstn_skipn n r). apply in_or_app. now right.
  - now apply (IH r).
Qed.

Lemma StronglySorted_firstn {A} (R : A -> A -> Prop) n : forall l,
  StronglySorted R l -> StronglySorted R (firstn n l).
Proof.
  induction n as [|n IH]; intros l Hs; simpl; [constructor|].
  destruct l as [|x r]; [constructor|].
  inversion Hs as [|? ? Hr Hx]; subst. constructor; auto.
  apply Forall_forall. intros y Hy. rewrite Forall_forall in Hx. apply Hx.
  rewrite <- (firstn_skipn n r). apply in_or_app. now left.
Qed.

Section SummaryFacts.
Variables getMonth getFullYear : Date -> Z.

(** The summary, in terms of the listings of the store. *)
Lemma summary_run now1 now2 clock this :
  summary getMonth getFullYear now1 now2 clock this =
  (Resolved
     (let accounts := JsMap.values (accounts this) in
      let transactions :=
        sort_by (descending Transaction.createdAt)
          (JsMap.values (transactions this)) in
      let debts :=
        sort_by (descending Debt.createdAt) (JsMap.values (debts this)) in
      let reminders :=
        sort_by (ascending Reminder.dueDate) (JsMap.values (reminders this)) in
      let monthly :=
        monthlyTransactions getMonth getFullYear (getMonth now1)
          (getFullYear now2) transactions in
      Summary.mk (totalBalance accounts) (monthlySpent monthly)
        (categorySpending monthly) (totalOwed debts) (totalOwedToUser debts)
        (recentTransactions transactions) (upcomingReminders clock reminders)
        (activeDebts debts)),
   this).
Proof. reflexivity. Qed.

(** X15.  Whenever the summary is produced, its [recentTransactions] are
    the ten newest transactions: the first ten of the listing of all the
    stored transactions, newest first, exactly ten when more than ten are
    stored and all of them otherwise, and none of the transactions left
    out is newer than one that is listed. *)
Theorem summary_recentTransactions now1 now2 clock this s :
  fst (summary getMonth getFullYear now1 now2 clock this) = Resolved s ->
  exists rest,
    fst (getTransactions None None None None this) =
      Resolved (Summary.recentTransactions s ++ rest) /\
    Permutation (Summary.recentTransactions s ++ rest)
      (JsMap.values (transactions this)) /\
    List.length (Summary.recentTransactions s) =
      Nat.min 10 (List.length (JsMap.values (transactions this))) /\
    ((List.length (JsMap.values (transactions this)) <= 10)%nat ->
     rest = []) /\
    StronglySorted
      (fun a b => Transaction.createdAt b <= Transaction.createdAt a)
      (Summary.recentTransactions s) /\
    (forall t u,
       In t (Summary.recentTransactions s) -> In u rest ->
       Transaction.createdAt u <= Transaction.createdAt t).
Proof.
  intros Hrun. rewrite summary_run in Hrun. cbv zeta in Hrun.
  cbn [fst] in Hrun. injection Hrun as <-.
  set (all := sort_by (descending Transaction.createdAt)
                (JsMap.values (transactions this))).
  exists (skipn 10 all).
  simpl Summary.recentTransactions. unfold recentTransactions, slice0.
  fold all.
  assert (Hsorted : StronglySorted
                      (fun a b => Transaction.createdAt b <= Transaction.createdAt a)
                      all) by apply sort_descending.
  assert (Hlen : List.length all =
                 List.length (JsMap.values (transactions this))).
  { unfold all. apply Permutation_length, sort_by_perm. }
  split; [rewrite firstn_skipn; reflexivity|].
  split; [rewrite firstn_skipn; apply sort_by_perm|].
  split; [now rewrite length_firstn, Hlen|].
  split.
  { intros Hle. apply skipn_all2. now rewrite Hlen. }
  split; [now apply StronglySorted_firstn|].
  intros t u Ht Hu.
  exact (StronglySorted_firstn_skipn _ 10 all Hsorted t u Ht Hu).
Qed.

(** X16.  Whenever the summary is produced, its [activeDebts] are the five
    newest unsettled debts: the first five of the unsettled debts in the
    listing of all the stored debts, newest first, exactly five when more
    than five stored debts are unsettled and all of them otherwise, and
    none of the unsettled debts left out is newer than one that is
    listed. *)
Theorem summary_activeDebts now1 now2 clock this s :
  fst (summary getMonth getFullYear now1 now2 clock this) = Resolved s ->
  exists all rest,
    fst (getDebts this) = Resolved all /\
    Permutation all (JsMap.values (debts this)) /\
    filter (fun d => negb (Debt.settled d)) all =
      Summary.activeDebts s ++ rest /\
    List.length (Summary.activeDebts s) =
      Nat.min 5
        (List.length
           (filter (fun d => negb (Debt.settled d))
              (JsMap.values (debts this)))) /\
    (forall d, In d (Summary.activeDebts s) ->
       Debt.settled d = false /\ In d (JsMap.values (debts this))) /\
    StronglySorted (fun a b => Debt.createdAt b <= Debt.createdAt a)
      (Summary.activeDebts s) /\
    (forall d u,
       In d (Summary.activeDebts s) -> In u rest ->
       Debt.createdAt u <= Debt.createdAt d).
Proof.
  intros Hrun. rewrite summary_run in Hrun. cbv zeta in Hrun.
  cbn [fst] in Hrun. injection Hrun as <-.
  set (all := sort_by (descending Debt.createdAt) (JsMap.values (debts this))).
  set (open := filter (fun d => negb (Debt.settled d)) all).
  exists all, (skipn 5 open).
  simpl Summary.activeDebts. unfold activeDebts, slice0. fold all. fold open.
  assert (Hsorted : StronglySorted
                      (fun a b => Debt.createdAt b <= Debt.createdAt a) open).
  { apply StronglySorted_filter. apply sort_descending. }
  assert (Hlen : List.length open =
                 List.length
                   (filter (fun d => negb (Debt.settled d))
                      (JsMap.values (debts this)))).
  { unfold open, all. rewrite filter_sort_descending.
    apply Permutation_length, sort_by_perm. }
  split; [reflexivity|].
  split; [apply sort_by_perm|].
  split; [now rewrite firstn_skipn|].
  split; [now rewrite length_firstn, Hlen|].
  split.
  { intros d Hd.
    assert (Hin : In d open).
    { rewrite <- (firstn_skipn 5 open). apply in_or_app. now left. }
    apply filter_In in Hin. destruct Hin as [Hin Hs].
    split; [now destruct (Debt.settled d)|].
    apply Permutation_in with (l := all); auto. apply sort_by_perm. }
  split; [now apply StronglySorted_firstn|].
  intros d u Hd Hu.
  exact (StronglySorted_firstn_skipn _ 5 open Hsorted d u Hd Hu).
Qed.

Lemma pendingAfter_In clock r : forall l k,
  In r (pendingAfter clock k l) ->
  In r l /\ Reminder.status r = pending /\
  exists j, clock j < Reminder.dueDate r.
Proof.
  induction l as [|x rest IH]; intros k H; simpl in H; [tauto|].
  destruct (ReminderStatus_eqb (Reminder.status x) pending) eqn:Es.
  - destruct (clock k <? Reminder.dueDate x) eqn:Ed.
    + destruct H as [<-|H].
      * split; [now left|]. split.
        { now destruct (Reminder.status x). }
        exists k. now apply Z.ltb_lt.
      * destruct (IH _ H) as (H1 & H2 & H3). simpl. tauto.
    + destruct (IH _ H) as (H1 & H2 & H3). simpl. tauto.
  - destruct (IH _ H) as (H1 & H2 & H3). simpl. tauto.
Qed.

Lemma In_pendingAfter clock r : forall l k,
  In r l -> Reminder.status r = pending ->
  (forall j, clock j < Reminder.dueDate r) ->
  In r (pendingAfter clock k l).
Proof.
  induction l as [|x rest IH]; intros k Hin Hs Hd; simpl in *; [tauto|].
  destruct Hin as [->|Hin].
  - rewrite Hs. simpl. specialize (Hd k). apply Z.ltb_lt in Hd. rewrite Hd.
    now left.
  - destruct (ReminderStatus_eqb (Reminder.status x) pending); auto.
    destruct (clock k <? Reminder.dueDate x); [right|]; auto.
Qed.

Lemma pendingAfter_sorted (R : Reminder.t -> Reminder.t -> Prop) clock :
  forall l k,
  StronglySorted R l -> StronglySorted R (pendingAfter clock k l).
Proof.
  induction l as [|x rest IH]; intros k Hs; simpl; [constructor|].
  inversion Hs as [|? ? Hr Hx]; subst.
  destruct (ReminderStatus_eqb (Reminder.status x) pending); auto.
  destruct (clock k <? Reminder.dueDate x); auto.
  constructor; auto.
  apply Forall_forall. intros y Hy. apply pendingAfter_In in Hy.
  rewrite Forall_forall in Hx. now apply Hx.
Qed.

(** X17.  The summary's [upcomingReminders], when the clock reads between
    [t0] and [t1] while the route runs: at most five, each stored, pending
    and due after [t0], in ascending order of [dueDate]; and a stored
    pending reminder due after [t1] that is left out is due no earlier
    than any that is listed. *)
Theorem summary_upcomingReminders now1 now2 clock this t0 t1 :
  (forall k, t0 <= clock k <= t1) ->
  exists s,
    summary getMonth getFullYear now1 now2 clock this = (Resolved s, this) /\
    (List.length (Summary.upcomingReminders s) <= 5)%nat /\
    (forall r, In r (Summary.upcomingReminders s) ->
       In r (JsMap.values (reminders this)) /\
       Reminder.status r = pending /\ t0 < Reminder.dueDate r) /\
    StronglySorted (fun a b => Reminder.dueDate a <= Reminder.dueDate b)
      (Summary.upcomingReminders s) /\
    (forall r u,
       In r (Summary.upcomingReminders s) ->
       In u (JsMap.values (reminders this)) ->
       Reminder.status u = pending -> t1 < Reminder.dueDate u ->
       ~ In u (Summary.upcomingReminders s) ->
       Reminder.dueDate r <= Reminder.dueDate u).
Proof.
  intros Hclock. rewrite summary_run. cbv zeta.
  set (all := sort_by (ascending Reminder.dueDate)
                (JsMap.values (reminders this))).
  set (due := pendingAfter clock 0 all).
  eexists. split; [reflexivity|].
  simpl Summary.upcomingReminders. unfold upcomingReminders, slice0. fold due.
  assert (Hsorted : StronglySorted
                      (fun a b => Reminder.dueDate a <= Reminder.dueDate b) due).
  { apply pendingAfter_sorted. apply sort_ascending. }
  assert (Hall : forall r, In r all <-> In r (JsMap.values (reminders this))).
  { intros r. split; apply Permutation_in;
      [|symmetry]; apply sort_by_perm. }
  split; [apply firstn_le_length|].
  split.
  { intros r Hr.
    assert (Hin : In r due).
    { rewrite <- (firstn_skipn 5 due). apply in_or_app. now left. }
    apply pendingAfter_In in Hin. destruct Hin as (H1 & H2 & j & Hj).
    split; [now apply Hall|]. split; auto.
    specialize (Hclock j). lia. }
  split; [now apply StronglySorted_firstn|].
  intros r u Hr Hu Hs Hd Hnot.
  assert (Hin : In u due).
  { apply In_pendingAfter; auto; [now apply Hall|].
    intros j. specialize (Hclock j). lia. }
  rewrite <- (firstn_skipn 5 due) in Hin. apply in_app_or in Hin.
  destruct Hin as [Hin|Hin]; [contradiction|].
  exact (StronglySorted_firstn_skipn _ 5 due Hsorted r u Hr Hin).
Qed.
End SummaryFacts.

Lemma summary_recentTransactions_witness :
  exists s,
    fst (summary Scenario.getMonth Scenario.getFullYear 1700000009000
           1700000009000 Scenario.clock Scenario.store) = Resolved s /\
    List.length (Summary.recentTransactions s) =
      Nat.min 10 (List.length (JsMap.values (transactions Scenario.store))).
Proof.
  assert (H : exists s,
            fst (summary Scenario.getMonth Scenario.getFullYear 1700000009000
                   1700000009000 Scenario.clock Scenario.store) = Resolved s).
  { eexists. rewrite summary_run. reflexivity. }
  destruct H as [s H]. exists s. split; [exact H|].
  destruct (summary_recentTransactions Scenario.getMonth Scenario.getFullYear
              1700000009000 1700000009000 Scenario.clock Scenario.store s H)
    as (rest & _ & _ & Hlen & _).
  exact Hlen.
Defined.

Lemma summary_upcomingReminders_witness :
  (forall k, 1700000009000 <= Scenario.clock k <= 1700000009000) /\
  exists s,
    summary Scenario.getMonth Scenario.getFullYear 1700000009000
      1700000009000 Scenario.clock Scenario.store =
      (Resolved s, Scenario.store) /\
    (List.length (Summary.upcomingReminders s) <= 5)%nat.
Proof.
  assert (H : forall k, 1700000009000 <= Scenario.clock k <= 1700000009000)
    by (intros k; unfold Scenario.clock; lia).
  split; [exact H|].
  destruct (summary_upcomingReminders Scenario.getMonth Scenario.getFullYear
              1700000009000 1700000009000 Scenario.clock Scenario.store
              1700000009000 1700000009000 H)
    as (s & Hrun & Hlen & _).
  exists s. split; [exact Hrun|exact Hlen].
Defined.

(** In the scenario one reminder is upcoming: the rent, which is pending
    and due; the phone bill is paid and the library fine is overdue. *)
Example summary_scenario :
  option_map (fun s => map Reminder.title (Summary.upcomingReminders s))
    (match fst (summary Scenario.getMonth Scenario.getFullYear 1700000009000
                  1700000009000 Scenario.clock Scenario.store) with
     | Resolved s => Some s
     | Rejected _ => None
     end) = Some ["Rent"].
Proof. vm_compute. reflexivity. Qed.

Lemma resolved_inj {A} (a b : A) (s1 s2 : MemStorage) :
  (Resolved a, s1) = (Resolved b, s2) -> a = b.
Proof. congruence. Qed.

Lemma summary_activeDebts_witness :
  exists s,
    fst (summary Scenario.getMonth Scenario.getFullYear 1700000009000
           1700000009000 Scenario.clock Scenario.store) = Resolved s /\
    List.length (Summary.activeDebts s) =
      Nat.min 5
        (List.length
           (filter (fun d => negb (Debt.settled d))
              (JsMap.values (debts Scenario.store)))).
Proof.
  assert (H : exists s,
            fst (summary Scenario.getMonth Scenario.getFullYear 1700000009000
                   1700000009000 Scenario.clock Scenario.store) = Resolved s).
  { eexists. rewrite summary_run. reflexivity. }
  destruct H as [s H]. exists s. split; [exact H|].
  destruct (summary_activeDebts Scenario.getMonth Scenario.getFullYear
              1700000009000 1700000009000 Scenario.clock Scenario.store s H)
    as (all & rest & _ & _ & _ & Hlen & _).
  exact Hlen.
Defined.

(** In the scenario the one unsettled debt is the active one. *)
Example summary_scenario_debts :
  option_map (fun s => map Debt.id (Summary.activeDebts s))
    (match fst (summary Scenario.getMonth Scenario.getFullYear 1700000009000
                  1700000009000 Scenario.clock Scenario.store) with
     | Resolved s => Some s
     | Rejected _ => None
     end) = Some ["debt-1"].
Proof. vm_compute. reflexivity. Qed.

Lemma JsMap_keys_set_In {V} c k (v : V) m :
  In c (JsMap.keys (JsMap.set k v m)) <-> c = k \/ In c (JsMap.keys m).
Proof.
  unfold JsMap.keys. induction m as [|[k' v'] r IH]; simpl.
  - intuition.
  - destruct (String.eqb k k') eqn:E; simpl.
    + apply String.eqb_eq in E. subst k'. intuition.
    + rewrite IH. intuition.
Qed.

(** The keys of the category totals: those of the accumulator and the
    categories of the expenses. *)
Lemma categorySpending_fold_keys c l : forall acc,
  In c (JsMap.keys
          (fold_left
             (fun acc t =>
                JsMap.set (Category_name (Transaction.category t))
                  (Float.add
                     (or_zero
                        (JsMap.get (Category_name (Transaction.category t)) acc))
                     (parseFloat (Transaction.amount t)))
                  acc)
             l acc)) <->
  In c (JsMap.keys acc) \/
  exists t, In t l /\ Category_name (Transaction.category t) = c.
Proof.
  induction l as [|x r IH]; intros acc; simpl.
  - split; [tauto|]. intros [H|(t & [] & _)]. exact H.
  - rewrite IH, JsMap_keys_set_In. split.
    + intros [[->|H]|(t & Ht & Hc)]; eauto.
    + intros [H|(t & [<-|Ht] & Hc)]; eauto.
Qed.

Lemma categorySpending_fold_NoDup l : forall acc : JsMap.t Float.double,
  NoDup (JsMap.keys acc) ->
  NoDup (JsMap.keys
           (fold_left
              (fun acc t =>
                 JsMap.set (Category_name (Transaction.category t))
                   (Float.add
                      (or_zero
                         (JsMap.get (Category_name (Transaction.category t)) acc))
                      (parseFloat (Transaction.amount t)))
                   acc)
              l acc)).
Proof.
  induction l as [|x r IH]; intros acc H; simpl; auto.
  apply IH. now apply JsMapFacts.set_NoDup.
Qed.

Section SpendingFacts.
Variables getMonth getFullYear : Date -> Z.

(** X18.  The summary's [categorySpending] has one entry for each category
    in which an expense of the month is stored and no other entry, so at
    most six: incomes and the transactions of other months open no
    entry. *)
Theorem summary_categorySpending now1 now2 clock this :
  exists s,
    summary getMonth getFullYear now1 now2 clock this = (Resolved s, this) /\
    NoDup (JsMap.keys (Summary.categorySpending s)) /\
    (List.length (JsMap.keys (Summary.categorySpending s)) <= 6)%nat /\
    (forall c,
       In c (JsMap.keys (Summary.categorySpending s)) <->
       exists t,
         In t (JsMap.values (transactions this)) /\
         Transaction.type t = expense /\
         getMonth (Transaction.createdAt t) = getMonth now1 /\
         getFullYear (Transaction.createdAt t) = getFullYear now2 /\
         Category_name (Transaction.category t) = c).
Proof.
  rewrite summary_run. cbv zeta. eexists. split; [reflexivity|].
  simpl Summary.categorySpending. unfold categorySpending.
  set (all := sort_by (descending Transaction.createdAt)
                (JsMap.values (transactions this))).
  assert (Hkeys : forall c,
            In c (JsMap.keys
                    (fold_left
                       (fun acc t =>
                          JsMap.set (Category_name (Transaction.category t))
                            (Float.add
                               (or_zero
                                  (JsMap.get
                                     (Category_name (Transaction.category t))
                                     acc))
                               (parseFloat (Transaction.amount t)))
                            acc)
                       (filter isExpense
                          (monthlyTransactions getMonth getFullYear
                             (getMonth now1) (getFullYear now2) all))
                       JsMap.empty)) <->
            exists t,
              In t (JsMap.values (transactions this)) /\
              Transaction.type t = expense /\
              getMonth (Transaction.createdAt t) = getMonth now1 /\
              getFullYear (Transaction.createdAt t) = getFullYear now2 /\
              Category_name (Transaction.category t) = c).
  { intros c. rewrite categorySpending_fold_keys. simpl. split.
    - intros [[]|(t & Ht & Hc)]. exists t.
      apply filter_In in Ht. destruct Ht as [Ht He].
      apply filter_In in Ht. destruct Ht as [Ht Hm].
      apply andb_true_iff in Hm. destruct Hm as [Hm Hy].
      apply Z.eqb_eq in Hm. apply Z.eqb_eq in Hy.
      split; [apply Permutation_in with (l := all); auto; apply sort_by_perm|].
      unfold isExpense in He.
      split; [now destruct (Transaction.type t)|]. auto.
    - intros (t & Ht & He & Hm & Hy & Hc). right. exists t. split; auto.
      apply filter_In. split; [|unfold isExpense; now rewrite He].
      apply filter_In. split.
      + apply Permutation_in with (l := JsMap.values (transactions this));
          auto. symmetry. apply sort_by_perm.
      + apply andb_true_iff. split; now apply Z.eqb_eq. }
  assert (Hnd : NoDup
                  (JsMap.keys
                     (fold_left
                        (fun acc t =>
                           JsMap.set (Category_name (Transaction.category t))
                             (Float.add
                                (or_zero
                                   (JsMap.get
                                      (Category_name (Transaction.category t))
                                      acc))
                                (parseFloat (Transaction.amount t)))
                             acc)
                        (filter isExpense
                           (monthlyTransactions getMonth getFullYear
                              (getMonth now1) (getFullYear now2) all))
                        JsMap.empty))).
  { apply categorySpending_fold_NoDup. constructor. }
  split; [exact Hnd|]. split; [|exact Hkeys].
  apply (NoDup_incl_length
           (l' := ["food"; "transport"; "entertainment"; "study"; "mess";
                   "other"])); [exact Hnd|].
  intros c Hc. apply Hkeys in Hc. destruct Hc as (t & _ & _ & _ & _ & <-).
  destruct (Transaction.category t); simpl; tauto.
Qed.

(** X19.  Incomes and the transactions of other months do not count in the
    month's spending: deleting a stored transaction that is an income, or
    that is not of the month and year the summary reads, leaves
    [monthlySpent] and [categorySpending] as they are. *)
Theorem summary_spending_ignores now1 now2 clock this id t :
  NoDup (JsMap.keys (transactions this)) ->
  JsMap.get id (transactions this) = Some t ->
  Transaction.type t = income \/
  getMonth (Transaction.createdAt t) <> getMonth now1 \/
  getFullYear (Transaction.createdAt t) <> getFullYear now2 ->
  exists s s',
    summary getMonth getFullYear now1 now2 clock this = (Resolved s, this) /\
    fst (summary getMonth getFullYear now1 now2 clock
           (snd (deleteTransaction id this))) = Resolved s' /\
    Summary.monthlySpent s' = Summary.monthlySpent s /\
    Summary.categorySpending s' = Summary.categorySpending s.
Proof.
  intros Hnd Hget Hout.
  destruct (JsMapFacts.values_split id t (transactions this) Hnd Hget)
    as (pre & post & Hvals & _ & Hdel).
  rewrite !summary_run. cbv zeta. eexists. eexists.
  split; [reflexivity|]. split; [reflexivity|].
  simpl Summary.monthlySpent. simpl Summary.categorySpending.
  unfold monthlySpent, categorySpending, monthlyTransactions.
  simpl transactions. rewrite Hdel, Hvals.
  rewrite !filter_filter, !filter_sort_descending, !filter_app. simpl.
  assert (Hno : (getMonth (Transaction.createdAt t) =? getMonth now1)
                && (getFullYear (Transaction.createdAt t) =? getFullYear now2)
                && isExpense t = false).
  { unfold isExpense.
    destruct Hout as [Hi|[Hm|Hy]].
    - rewrite Hi. apply andb_false_r.
    - apply Z.eqb_neq in Hm. now rewrite Hm.
    - apply Z.eqb_neq in Hy. rewrite Hy. now rewrite andb_false_r. }
  rewrite Hno. auto.
Qed.
End SpendingFacts.

Lemma summary_spending_ignores_witness :
  NoDup (JsMap.keys (transactions Scenario.store)) /\
  JsMap.get "txn-2" (transactions Scenario.store) =
    Some (Transaction.mk "txn-2" "acc-main" income (Fixed2 10) "Interest"
            otherCategory 1700000002000) /\
  exists s s',
    summary Scenario.getMonth Scenario.getFullYear 1700000009000
      1700000009000 Scenario.clock Scenario.store =
      (Resolved s, Scenario.store) /\
    fst (summary Scenario.getMonth Scenario.getFullYear 1700000009000
           1700000009000 Scenario.clock
           (snd (deleteTransaction "txn-2" Scenario.store))) = Resolved s' /\
    Summary.monthlySpent s' = Summary.monthlySpent s.
Proof.
  assert (Hnd : NoDup (JsMap.keys (transactions Scenario.store))).
  { vm_compute. constructor; [|constructor; [|constructor]].
    - intros [H|[]]. discriminate H.
    - intros []. }
  assert (Hget : JsMap.get "txn-2" (transactions Scenario.store) =
                 Some (Transaction.mk "txn-2" "acc-main" income (Fixed2 10)
                         "Interest" otherCategory 1700000002000))
    by (vm_compute; reflexivity).
  split; [exact Hnd|]. split; [exact Hget|].
  destruct (summary_spending_ignores Scenario.getMonth Scenario.getFullYear
              1700000009000 1700000009000 Scenario.clock Scenario.store
              "txn-2" _ Hnd Hget (or_introl eq_refl))
    as (s & s' & H1 & H2 & H3 & _).
  exists s, s'. auto.
Defined.

(** ** Running sums in binary64 *)

Module SumFacts.
Import Float FloatFacts.

(** One more in-range amount added to a running sum [s] that is near the
    decimal total [C]. *)
Lemma add_step s C c E K :
  0 <= E < 2 ^ 52 -> 0 <= K <= 10 ^ 13 ->
  2 ^ 53 * Z.abs (s * 100 - C * one) <= E * one ->
  Z.abs C <= K ->
  Z.abs c < 10 ^ 10 ->
  exists s',
    add (Fin s) (parseFloat (Fixed2 c)) = Fin s' /\
    2 ^ 53 * Z.abs (s' * 100 - (C + c) * one)
    <= (E + K + 2 * 10 ^ 10 + 3) * one /\
    Z.abs (C + c) <= K + 10 ^ 10.
Proof.
  intros HE HK Hs HC Hc.
  destruct (parseFloat_cents c Hc) as (u & Hu & Hnu). rewrite Hu.
  unfold near_cents in Hnu. simpl add.
  pose proof one_large as H1. pose proof overflow_large as H2.
  remember one as U eqn:HU. remember overflow as O eqn:HO.
  change (2 ^ 53) with 9007199254740992 in *.
  change (2 ^ 52) with 4503599627370496 in *.
  change (2 ^ 60) with 1152921504606846976 in *.
  change (10 ^ 10) with 10000000000 in *.
  change (10 ^ 13) with 10000000000000 in *.
  assert (HU0 : 0 <= U) by lia.
  assert (HcU : Z.abs c * U <= 10000000000 * U)
    by (apply Z.mul_le_mono_nonneg_r; lia).
  assert (HEU : E * U < 4503599627370496 * U)
    by (apply Z.mul_lt_mono_pos_r; lia).
  assert (HCU : Z.abs (C * U) <= K * U).
  { rewrite Z.abs_mul, (Z.abs_eq U) by lia.
    apply Z.mul_le_mono_nonneg_r; lia. }
  assert (HcU' : Z.abs (c * U) <= 10000000000 * U).
  { rewrite Z.abs_mul, (Z.abs_eq U) by lia. exact HcU. }
  assert (HKU : K * U <= 10000000000000 * U)
    by (apply Z.mul_le_mono_nonneg_r; lia).
  assert (HEU0 : 0 <= E * U) by (apply Z.mul_nonneg_nonneg; lia).
  assert (HKU0 : 0 <= K * U) by (apply Z.mul_nonneg_nonneg; lia).
  assert (Hov : 2 * Z.abs (s + u) + 1 < O * 1) by lia.
  rewrite HO in Hov.
  destruct (rne_finite (s + u) 1 ltac:(lia) Hov) as (s' & Hs' & He).
  clear Hov. exists s'. split; [exact Hs'|].
  change (2 ^ 53) with 9007199254740992 in *.
  change (2 ^ 52) with 4503599627370496 in *.
  split; [|lia].
  replace ((C + c) * U) with (C * U + c * U) by ring.
  replace ((E + K + 2 * 10000000000 + 3) * U)
    with (E * U + K * U + 20000000003 * U) by ring.
  lia.
Qed.

Lemma sumError_nonneg n : 0 <= sumError n.
Proof. induction n as [|n IH]; simpl sumError; lia. Qed.

Lemma sumError_mono n m : (n <= m)%nat -> sumError n <= sumError m.
Proof.
  induction 1 as [|m Hle IH]; [lia|].
  simpl sumError. pose proof (sumError_nonneg m). lia.
Qed.

Lemma sumError_900 : sumError 900 < 2 ^ 52.
Proof. vm_compute. reflexivity. Qed.

(** The running sum of up to 900 in-range amounts stays near their decimal
    total. *)
Lemma fold_near {A} (amount : A -> money) l : forall s C n,
  (n + List.length l <= 900)%nat ->
  Forall (fun x => inRange (amount x)) l ->
  2 ^ 53 * Z.abs (s * 100 - C * one) <= sumError n * one ->
  Z.abs C <= Z.of_nat n * 10 ^ 10 ->
  exists s',
    fold_left (fun sum x => add sum (parseFloat (amount x))) l (Fin s) =
      Fin s' /\
    2 ^ 53 * Z.abs (s' * 100 - (C + totalCents amount l) * one)
    <= sumError (n + List.length l) * one /\
    Z.abs (C + totalCents amount l)
    <= Z.of_nat (n + List.length l) * 10 ^ 10.
Proof.
  induction l as [|x r IH]; intros s C n Hlen Hall Hs HC;
    cbn [fold_left List.length].
  - exists s. change (totalCents amount []) with 0.
    rewrite Nat.add_0_r, Z.add_0_r. auto.
  - change (totalCents amount (x :: r))
      with (centsOf (amount x) + totalCents amount r).
    inversion Hall as [|? ? Hx Hr]; subst.
    destruct (amount x) as [c|] eqn:Hax; [|contradiction].
    cbn [inRange] in Hx. cbn [List.length] in Hlen. cbn [centsOf].
    assert (HE : 0 <= sumError n < 2 ^ 52).
    { split; [apply sumError_nonneg|].
      apply Z.le_lt_trans with (sumError 900); [|apply sumError_900].
      apply sumError_mono. lia. }
    assert (HK : 0 <= Z.of_nat n * 10 ^ 10 <= 10 ^ 13) by lia.
    destruct (add_step s C c _ _ HE HK Hs HC Hx) as (s1 & Hs1 & He1 & HC1).
    rewrite Hs1.
    assert (Hlen' : (S n + List.length r <= 900)%nat) by lia.
    assert (HC1' : Z.abs (C + c) <= Z.of_nat (S n) * 10 ^ 10) by lia.
    destruct (IH s1 (C + c) (S n) Hlen' Hr He1 HC1')
      as (s' & Hs' & He' & HC').
    exists s'. split; [exact Hs'|].
    replace (C + (c + totalCents amount r))
      with (C + c + totalCents amount r) by ring.
    replace (n + S (List.length r))%nat with (S n + List.length r)%nat
      by lia.
    split; assumption.
Qed.

(** Printed with [toFixed(2)], the sum of up to 900 in-range amounts is
    their decimal total. *)
Lemma printed_sum_exact {A} (amount : A -> money) l :
  (List.length l <= 900)%nat ->
  Forall (fun x => inRange (amount x)) l ->
  toFixed2 (fold_left (fun sum x => add sum (parseFloat (amount x))) l zero) =
  Fixed2 (totalCents amount l).
Proof.
  intros Hlen Hall.
  destruct (fold_near amount l 0 0 0) as (s & Hs & He & HC); auto.
  { simpl. lia. }
  { simpl. lia. }
  unfold zero. rewrite Hs.
  cbn [Nat.add] in He, HC. rewrite Z.add_0_l in He, HC.
  assert (HE : sumError (List.length l) < 2 ^ 52).
  { apply Z.le_lt_trans with (sumError 900); [|apply sumError_900].
    now apply sumError_mono. }
  assert (HK : Z.of_nat (List.length l) * 10 ^ 10 <= 10 ^ 13) by lia.
  pose proof (sumError_nonneg (List.length l)) as HE0.
  set (T := totalCents amount l) in *.
  set (E := sumError (List.length l)) in *.
  set (K := Z.of_nat (List.length l) * 10 ^ 10) in *.
  clearbody T E K.
  pose proof one_large as H1.
  unfold toFixed2. remember one as U eqn:HU.
  change (2 ^ 53) with 9007199254740992 in *.
  change (2 ^ 52) with 4503599627370496 in *.
  change (2 ^ 60) with 1152921504606846976 in *.
  change (10 ^ 13) with 10000000000000 in *.
  assert (HEU : E * U < 4503599627370496 * U)
    by (apply Z.mul_lt_mono_pos_r; lia).
  assert (HTU : Z.abs (T * U) <= 10000000000000 * U).
  { rewrite Z.abs_mul, (Z.abs_eq U) by lia.
    apply Z.mul_le_mono_nonneg_r; lia. }
  assert (Hfix : (10 ^ 21 * U <=? Z.abs s) = false).
  { apply Z.leb_gt. change (10 ^ 21) with 1000000000000000000000. lia. }
  rewrite Hfix. f_equal. apply toFixed2_near; lia.
Qed.

End SumFacts.

(** ** The assistant *)

Lemma Forall_filter {A} (P : A -> Prop) p l :
  Forall P l -> Forall P (filter p l).
Proof.
  rewrite !Forall_forall. intros H x Hx. apply filter_In in Hx. now apply H.
Qed.

Lemma filter_length_le {A} (p : A -> bool) l :
  (List.length (filter p l) <= List.length l)%nat.
Proof.
  induction l as [|x r IH]; simpl; auto. destruct (p x); simpl; lia.
Qed.

Section AssistantFacts.
Variables getMonth getFullYear : Date -> Z.
Variable generateContent : Prompt.t -> Generated.

(** X20.  The totals the assistant's prompt shows are the decimal ones:
    for up to 900 accounts with in-range two-decimal balances the total
    balance printed is their exact sum, and for up to 900 debts with
    in-range amounts the two debt totals printed are the exact sums over
    the unsettled debts of each type, although they are added up in
    binary64. *)
Theorem prompt_totals_exact clock userMessage accounts transactions debts :
  ((List.length accounts <= 900)%nat ->
   Forall (fun a => inRange (Account.balance a)) accounts ->
   Prompt.totalBalance
     (assistantPrompt getMonth getFullYear clock userMessage accounts
        transactions debts) =
   Fixed2 (totalCents Account.balance accounts)) /\
  ((List.length debts <= 900)%nat ->
   Forall (fun d => inRange (Debt.amount d)) debts ->
   Prompt.totalOwed
     (assistantPrompt getMonth getFullYear clock userMessage accounts
        transactions debts) =
   Fixed2 (totalCents Debt.amount
             (filter
                (fun d => DebtType_eqb (Debt.type d) owe && negb (Debt.settled d))
                debts)) /\
   Prompt.totalOwedToUser
     (assistantPrompt getMonth getFullYear clock userMessage accounts
        transactions debts) =
   Fixed2 (totalCents Debt.amount
             (filter
                (fun d => DebtType_eqb (Debt.type d) owed && negb (Debt.settled d))
                debts))).
Proof.
  unfold assistantPrompt. cbn [Prompt.totalBalance Prompt.totalOwed
                                Prompt.totalOwedToUser].
  split.
  - intros Hlen Hall. unfold totalBalance.
    now apply (SumFacts.printed_sum_exact Account.balance).
  - intros Hlen Hall. unfold totalOwed, totalOwedToUser, sum_amounts.
    split; apply (SumFacts.printed_sum_exact Debt.amount);
      try (apply Forall_filter; exact Hall);
      (eapply Nat.le_trans; [apply filter_length_le|exact Hlen]).
Qed.

(** X21.  [generateAIResponse] never rejects and never resolves with the
    empty string, and it leaves the store as it is: its reply is one of
    its two fixed sentences or a text the model returned.  Whenever the
    four listings it reads resolve, the prompt is built from them, and the
    reply is the model's text when the model returns a non-empty one, the
    apology when the text is absent or empty, and the other fixed sentence
    when the call throws. *)
Theorem generateAIResponse_replies clock userMessage this :
  exists reply,
    generateAIResponse getMonth getFullYear generateContent clock userMessage
      this = (Resolved reply, this) /\
    reply <> "" /\
    (reply = difficulties \/ reply = apology \/
     exists prompt, generateContent prompt = Response (Some reply)) /\
    (forall accounts transactions debts reminders,
       fst (getAccounts this) = Resolved accounts ->
       fst (getTransactions None None None None this) =
         Resolved transactions ->
       fst (getDebts this) = Resolved debts ->
       fst (getReminders this) = Resolved reminders ->
       (forall text,
          generateContent
            (assistantPrompt getMonth getFullYear clock userMessage accounts
               transactions debts) = Response (Some text) ->
          text <> "" -> reply = text) /\
       (generateContent
          (assistantPrompt getMonth getFullYear clock userMessage accounts
             transactions debts) = Response (Some "") ->
        reply = apology) /\
       (generateContent
          (assistantPrompt getMonth getFullYear clock userMessage accounts
             transactions debts) = Response None ->
        reply = apology) /\
       (forall e,
          generateContent
            (assistantPrompt getMonth getFullYear clock userMessage accounts
               transactions debts) = Throws e ->
          reply = difficulties)).
Proof.
  unfold generateAIResponse, catch. run.
  match goal with
  | |- context [generateContent ?p] => set (prompt := p)
  end.
  assert (Hprompt : forall accounts transactions debts reminders,
            fst (getAccounts this) = Resolved accounts ->
            fst (getTransactions None None None None this) =
              Resolved transactions ->
            fst (getDebts this) = Resolved debts ->
            fst (getReminders this) = Resolved reminders ->
            assistantPrompt getMonth getFullYear clock userMessage accounts
              transactions debts = prompt).
  { intros accounts transactions debts reminders Ha Ht Hd Hr.
    unfold getAccounts, getTransactions, getDebts, bind, read, ret in Ha, Ht, Hd.
    simpl in Ha, Ht, Hd.
    injection Ha as <-. injection Ht as <-. injection Hd as <-.
    reflexivity. }
  destruct (generateContent prompt) as [e|[text|]] eqn:G.
  - exists difficulties.
    split; [reflexivity|]. split; [discriminate|]. split; [now left|].
    intros accounts transactions debts reminders Ha Ht Hd Hr.
    rewrite (Hprompt _ _ _ _ Ha Ht Hd Hr), G.
    repeat split; try discriminate; auto.
  - destruct (String.eqb text "") eqn:E.
    + apply String.eqb_eq in E. subst text.
      exists apology.
      split; [reflexivity|]. split; [discriminate|].
      split; [right; now left|].
      intros accounts transactions debts reminders Ha Ht Hd Hr.
      rewrite (Hprompt _ _ _ _ Ha Ht Hd Hr), G.
      repeat split; try discriminate; auto.
      intros text [= <-] H. now contradiction H.
    + apply String.eqb_neq in E.
      exists text.
      split; [reflexivity|]. split; [exact E|].
      split; [right; right; now exists prompt|].
      intros accounts transactions debts reminders Ha Ht Hd Hr.
      rewrite (Hprompt _ _ _ _ Ha Ht Hd Hr), G.
      repeat split; try discriminate; auto.
      * now intros t [= <-].
      * intros [= H]. now contradiction E.
  - exists apology.
    split; [reflexivity|]. split; [discriminate|]. split; [right; now left|].
    intros accounts transactions debts reminders Ha Ht Hd Hr.
    rewrite (Hprompt _ _ _ _ Ha Ht Hd Hr), G.
    repeat split; try discriminate; auto.
Qed.
End AssistantFacts.

Lemma prompt_totals_exact_witness :
  (List.length (JsMap.values (accounts Sample.fresh)) <= 900)%nat /\
  Forall (fun a => inRange (Account.balance a))
    (JsMap.values (accounts Sample.fresh)) /\
  Prompt.totalBalance
    (assistantPrompt Scenario.getMonth Scenario.getFullYear Scenario.clock
       "How much do I have?" (JsMap.values (accounts Sample.fresh)) [] []) =
  Fixed2 1120000.
Proof.
  assert (Hlen : (List.length (JsMap.values (accounts Sample.fresh)) <= 900)%nat)
    by (vm_compute; repeat constructor).
  assert (Hall : Forall (fun a => inRange (Account.balance a))
                   (JsMap.values (accounts Sample.fresh))).
  { repeat constructor. }
  split; [exact Hlen|]. split; [exact Hall|].
  exact (proj1 (prompt_totals_exact Scenario.getMonth Scenario.getFullYear
                  Scenario.clock "How much do I have?"
                  (JsMap.values (accounts Sample.fresh)) [] []) Hlen Hall).
Defined.

Lemma generateAIResponse_replies_witness :
  fst (getAccounts Scenario.store) =
    Resolved (JsMap.values (accounts Scenario.store)) /\
  exists reply,
    generateAIResponse Scenario.getMonth Scenario.getFullYear
      (fun _ => Response (Some "You have 11200.00.")) Scenario.clock
      "How much do I have?" Scenario.store = (Resolved reply, Scenario.store) /\
    reply = "You have 11200.00.".
Proof.
  assert (Ha : fst (getAccounts Scenario.store) =
               Resolved (JsMap.values (accounts Scenario.store)))
    by reflexivity.
  split; [exact Ha|].
  destruct (generateAIResponse_replies Scenario.getMonth Scenario.getFullYear
              (fun _ => Response (Some "You have 11200.00.")) Scenario.clock
              "How much do I have?" Scenario.store)
    as (reply & Hrun & _ & _ & Hcases).
  exists reply. split; [exact Hrun|].
  destruct (Hcases _ _ _ _ Ha eq_refl eq_refl eq_refl) as (Htext & _).
  apply (Htext "You have 11200.00." eq_refl). discriminate.
Defined.

(** ** The routes *)

(** X22.  The [PATCH] and [DELETE] routes of transactions, debts and
    reminders always answer 200 with their message of success, never 500;
    when the id is not stored they do so all the same and the store is
    left as it was. *)
Theorem mutation_routes_succeed this id :
  fst (deleteTransactionRoute id this) =
    mkReply 200 (Message "Transaction deleted successfully") /\
  fst (deleteDebtRoute id this) =
    mkReply 200 (Message "Debt deleted successfully") /\
  fst (deleteReminderRoute id this) =
    mkReply 200 (Message "Reminder deleted successfully") /\
  (forall body,
     fst (patchDebtRoute id body this) =
       mkReply 200 (Message "Debt updated successfully")) /\
  (forall body,
     fst (patchReminderRoute id body this) =
       mkReply 200 (Message "Reminder updated successfully")) /\
  (JsMap.get id (transactions this) = None ->
   snd (deleteTransactionRoute id this) = this) /\
  (JsMap.get id (debts this) = None ->
   snd (deleteDebtRoute id this) = this /\
   forall body, snd (patchDebtRoute id body this) = this) /\
  (JsMap.get id (reminders this) = None ->
   snd (deleteReminderRoute id this) = this /\
   forall body, snd (patchReminderRoute id body this) = this).
Proof.
  destruct this as [acc txn dbt rem chat].
  unfold deleteTransactionRoute, deleteDebtRoute, deleteReminderRoute,
    patchDebtRoute, patchReminderRoute, respond. run.
  unfold with_transactions, with_debts, with_reminders. simpl.
  split; [reflexivity|]. split; [reflexivity|]. split; [reflexivity|].
  split; [intros body; now destruct (JsMap.get id dbt)|].
  split; [intros body; now destruct (JsMap.get id rem)|].
  split; [intros H; now rewrite JsMapFacts.delete_absent|].
  split; intros H; rewrite H; simpl;
    (split; [now rewrite JsMapFacts.delete_absent|reflexivity]).
Qed.

Lemma mutation_routes_succeed_witness :
  JsMap.get "debt-9" (debts Sample.busy) = None /\
  patchDebtRoute "debt-9" Sample.settle Sample.busy =
    (mkReply 200 (Message "Debt updated successfully"), Sample.busy).
Proof.
  assert (N : JsMap.get "debt-9" (debts Sample.busy) = None)
    by (vm_compute; reflexivity).
  split; [exact N|].
  pose proof (mutation_routes_succeed Sample.busy "debt-9")
    as (_ & _ & _ & Hst & _ & _ & Hdebt & _).
  rewrite (surjective_pairing (patchDebtRoute "debt-9" Sample.settle Sample.busy)).
  rewrite (Hst Sample.settle), (proj2 (Hdebt N) Sample.settle). reflexivity.
Defined.

(** X23.  The [POST] routes of transactions, debts and reminders: a
    payload the schema rejects is answered 400 and leaves the store as it
    was; a valid one is answered 200 with the created entity, which is the
    one then stored under the new id. *)
Theorem post_routes this id now :
  (postTransactionRoute id now None this =
     (mkReply 400 (Message "Invalid transaction data"), this) /\
   postDebtRoute id now None this =
     (mkReply 400 (Message "Invalid debt data"), this) /\
   postReminderRoute id now None this =
     (mkReply 400 (Message "Invalid reminder data"), this)) /\
  (forall data, exists created,
     fst (postTransactionRoute id now (Some data) this) =
       mkReply 200 (Data created) /\
     JsMap.get id
       (transactions (snd (postTransactionRoute id now (Some data) this))) =
       Some created) /\
  (forall data, exists created,
     fst (postDebtRoute id now (Some data) this) =
       mkReply 200 (Data created) /\
     JsMap.get id (debts (snd (postDebtRoute id now (Some data) this))) =
       Some created) /\
  (forall data, exists created,
     fst (postReminderRoute id now (Some data) this) =
       mkReply 200 (Data created) /\
     JsMap.get id
       (reminders (snd (postReminderRoute id now (Some data) this))) =
       Some created).
Proof.
  split; [repeat split|]. split; [|split].
  - intros data. unfold postTransactionRoute, respond_validated, respond.
    rewrite createTransaction_run. eexists. split; [reflexivity|].
    apply JsMapFacts.get_set_same.
  - intros data. unfold postDebtRoute, respond_validated, respond. run.
    eexists. split; [reflexivity|]. apply JsMapFacts.get_set_same.
  - intros data.
    unfold postReminderRoute, respond_validated, respond, createReminder.
    run. eexists. split; [reflexivity|]. apply JsMapFacts.get_set_same.
Qed.

Lemma generateAIResponse_resolves getMonth getFullYear generateContent clock
  userMessage this :
  exists reply,
    generateAIResponse getMonth getFullYear generateContent clock userMessage
      this = (Resolved reply, this) /\
    reply <> "".
Proof.
  unfold generateAIResponse, catch. run.
  match goal with
  | |- context [generateContent ?p] => destruct (generateContent p) as [e|[text|]]
  end.
  - exists difficulties. split; [reflexivity|discriminate].
  - destruct (String.eqb text "") eqn:E.
    + exists apology. split; [reflexivity|discriminate].
    + exists text. split; [reflexivity|now apply String.eqb_neq].
  - exists apology. split; [reflexivity|discriminate].
Qed.

Section ChatRouteFacts.
Variables getMonth getFullYear : Date -> Z.
Variable generateContent : Prompt.t -> Generated.

(** X24.  [POST /api/chat/messages].  A payload the schema rejects is
    answered 400 and stores nothing.  A message that is not the user's is
    stored and returned, alone.  A user's message is stored and returned,
    and a second message is stored after it: the assistant's, marked as
    not the user's, whose content is never empty; nothing but the chat
    messages changes. *)
Theorem postChatMessageRoute_effect id1 now1 clock id2 now2 this :
  postChatMessageRoute getMonth getFullYear generateContent id1 now1 clock
    id2 now2 None this =
    (mkReply 400 (Message "Invalid message data"), this) /\
  (forall data,
     InsertChatMessage.isUser data = false ->
     postChatMessageRoute getMonth getFullYear generateContent id1 now1 clock
       id2 now2 (Some data) this =
     (mkReply 200
        (Data (ChatMessage.mk id1 (InsertChatMessage.content data) false now1)),
      with_chatMessages
        (JsMap.set id1
           (ChatMessage.mk id1 (InsertChatMessage.content data) false now1))
        this)) /\
  (forall data,
     InsertChatMessage.isUser data = true ->
     exists reply,
       reply <> "" /\
       postChatMessageRoute getMonth getFullYear generateContent id1 now1
         clock id2 now2 (Some data) this =
       (mkReply 200
          (Data (ChatMessage.mk id1 (InsertChatMessage.content data) true
                   now1)),
        with_chatMessages
          (fun messages =>
             JsMap.set id2 (ChatMessage.mk id2 reply false now2)
               (JsMap.set id1
                  (ChatMessage.mk id1 (InsertChatMessage.content data) true
                     now1)
                  messages))
          this) /\
       (id1 <> id2 ->
        JsMap.get id1
          (chatMessages
             (snd (postChatMessageRoute getMonth getFullYear generateContent
                     id1 now1 clock id2 now2 (Some data) this))) =
          Some (ChatMessage.mk id1 (InsertChatMessage.content data) true now1)
        /\
        JsMap.get id2
          (chatMessages
             (snd (postChatMessageRoute getMonth getFullYear generateContent
                     id1 now1 clock id2 now2 (Some data) this))) =
          Some (ChatMessage.mk id2 reply false now2))).
Proof.
  split; [reflexivity|]. split.
  - intros data Hu.
    unfold postChatMessageRoute, respond_validated, respond, createChatMessage.
    run. rewrite Hu. reflexivity.
  - intros data Hu.
    destruct (generateAIResponse_resolves getMonth getFullYear generateContent
                clock (InsertChatMessage.content data)
                (with_chatMessages
                   (JsMap.set id1
                      (ChatMessage.mk id1 (InsertChatMessage.content data)
                         true now1))
                   this))
      as (reply & Hrun & Hne).
    exists reply. split; [exact Hne|].
    assert (Heq :
      postChatMessageRoute getMonth getFullYear generateContent id1 now1
        clock id2 now2 (Some data) this =
      (mkReply 200
         (Data (ChatMessage.mk id1 (InsertChatMessage.content data) true
                  now1)),
       with_chatMessages
         (fun messages =>
            JsMap.set id2 (ChatMessage.mk id2 reply false now2)
              (JsMap.set id1
                 (ChatMessage.mk id1 (InsertChatMessage.content data) true
                    now1)
                 messages))
         this)).
    { unfold postChatMessageRoute, respond_validated, respond,
        createChatMessage.
      run. rewrite Hu, Hrun. reflexivity. }
    split; [exact Heq|].
    intros Hids. rewrite Heq. simpl. split.
    + rewrite JsMapFacts.get_set_other by assumption.
      apply JsMapFacts.get_set_same.
    + apply JsMapFacts.get_set_same.
Qed.
End ChatRouteFacts.

Lemma postChatMessageRoute_effect_witness :
  InsertChatMessage.isUser Scenario.question = true /\
  "msg-3" <> "msg-4" /\
  exists reply,
    reply <> "" /\
    JsMap.get "msg-4"
      (chatMessages
         (snd (postChatMessageRoute Scenario.getMonth Scenario.getFullYear
                 (fun _ => Response None) "msg-3" 1700000010000 Scenario.clock
                 "msg-4" 1700000011000 (Some Scenario.question)
                 Scenario.store))) =
      Some (ChatMessage.mk "msg-4" reply false 1700000011000).
Proof.
  assert (Hu : InsertChatMessage.isUser Scenario.question = true)
    by reflexivity.
  assert (Hids : "msg-3" <> "msg-4") by discriminate.
  split; [exact Hu|]. split; [exact Hids|].
  destruct (proj2 (proj2
              (postChatMessageRoute_effect Scenario.getMonth
                 Scenario.getFullYear (fun _ => Response None) "msg-3"
                 1700000010000 Scenario.clock "msg-4" 1700000011000
                 Scenario.store)) Scenario.question Hu)
    as (reply & Hne & _ & Hget).
  exists reply. split; [exact Hne|]. exact (proj2 (Hget Hids)).
Defined.

Lemma createTransaction_lookup_witness :
  "txn-1" <> "txn-3" /\
  fst (getTransaction "txn-1"
         (snd (createTransaction "txn-3" 1700000009000 Sample.lunch
                 Sample.busy))) =
  fst (getTransaction "txn-1" Sample.busy).
Proof.
  assert (H : "txn-1" <> "txn-3") by discriminate.
  split; [exact H|].
  destruct (createTransaction_lookup Sample.busy "txn-3" 1700000009000
              Sample.lunch)
    as (t & _ & _ & _ & _ & _ & _ & _ & _ & _ & Hother & _).
  exact (Hother "txn-1" H).
Defined.

Lemma summary_categorySpending_witness :
  In (Transaction.mk "txn-1" "acc-main" expense (Fixed2 5000) "Lunch" food
        1700000001000)
    (JsMap.values (transactions Scenario.store)) /\
  exists s,
    summary Scenario.getMonth Scenario.getFullYear 1700000009000
      1700000009000 Scenario.clock Scenario.store =
      (Resolved s, Scenario.store) /\
    In "food" (JsMap.keys (Summary.categorySpending s)).
Proof.
  assert (H : In (Transaction.mk "txn-1" "acc-main" expense (Fixed2 5000)
                    "Lunch" food 1700000001000)
                (JsMap.values (transactions Scenario.store))).
  { vm_compute. left. reflexivity. }
  split; [exact H|].
  destruct (summary_categorySpending Scenario.getMonth Scenario.getFullYear
              1700000009000 1700000009000 Scenario.clock Scenario.store)
    as (s & Hrun & _ & _ & Hkeys).
  exists s. split; [exact Hrun|].
  apply Hkeys.
  exists (Transaction.mk "txn-1" "acc-main" expense (Fixed2 5000) "Lunch" food
            1700000001000).
  split; [exact H|]. repeat split.
Defined.
